(** * salt.modules.virtualenv_mod: option resolution and command assembly

    A shallow embedding of [create] from [salt/modules/virtualenv_mod.py]
    and the properties of the command line it assembles for the two
    backends ([virtualenv] and [pyvenv]). *)

From Stdlib Require Import String Ascii List ZArith Bool Lia.
Import ListNotations.
Open Scope string_scope.
Open Scope list_scope.

(** String concatenation; [++] is kept for lists. *)
Infix "^^" := String.append (at level 60, right associativity).

(** ** Python string operations used by [create] *)

Module PyStr.

(** [s.startswith(p)] *)
Fixpoint startswith (p s : string) : bool :=
  match p with
  | EmptyString => true
  | String a p' =>
      match s with
      | EmptyString => false
      | String c s' => Ascii.eqb a c && startswith p' s'
      end
  end.

(** [sub in s] *)
Fixpoint contains (sub s : string) : bool :=
  if startswith sub s then true
  else match s with
       | EmptyString => false
       | String _ s' => contains sub s'
       end.

(** [s.split(sep)] for a non-empty [sep]: a left-to-right scan without
    overlaps.  [skip] counts the characters of a separator that has
    just been matched and is still to be dropped. *)
Fixpoint split_go (sep : string) (skip : nat) (s : string) : list string :=
  match s with
  | EmptyString => [EmptyString]
  | String c s' =>
      match skip with
      | S k => split_go sep k s'
      | O =>
          if startswith sep s
          then EmptyString :: split_go sep (String.length sep - 1) s'
          else match split_go sep 0 s' with
               | h :: t => String c h :: t
               | [] => [String c EmptyString]
               end
      end
  end.

Definition split (sep s : string) : list string := split_go sep 0 s.

(** The characters [str.strip()] removes: space, [\t], [\n], [\v],
    [\f] and [\r]. *)
Definition isspace (c : ascii) : bool :=
  let n := nat_of_ascii c in
  Nat.eqb n 32 || (Nat.leb 9 n && Nat.leb n 13).

Fixpoint lstrip (s : string) : string :=
  match s with
  | EmptyString => EmptyString
  | String c s' => if isspace c then lstrip s' else s
  end.

(** [rstrip] keeps a character when it is not a space or when something
    is left after it. *)
Fixpoint rstrip (s : string) : string :=
  match s with
  | EmptyString => EmptyString
  | String c s' =>
      match rstrip s' with
      | EmptyString => if isspace c then EmptyString else String c EmptyString
      | r => String c r
      end
  end.

Definition strip (s : string) : string := rstrip (lstrip s).

(** [sep.join(l)] *)
Definition join (sep : string) (l : list string) : string :=
  String.concat sep l.

Definition is_digit (c : ascii) : bool :=
  let n := nat_of_ascii c in Nat.leb 48 n && Nat.leb n 57.

Fixpoint digits (acc : Z) (s : string) : option Z :=
  match s with
  | EmptyString => Some acc
  | String c s' =>
      if is_digit c
      then digits (10 * acc + Z.of_nat (nat_of_ascii c - 48)) s'
      else None
  end.

Definition nat_literal (s : string) : option Z :=
  match s with
  | EmptyString => None
  | _ => digits 0 s
  end.

(** [int(s)] on a string, base ten: surrounding white space is
    dropped, one sign is allowed, at least one digit is required.
    [None] stands for the [ValueError] of an invalid literal. *)
Definition int (s : string) : option Z :=
  match strip s with
  | String "-" r => option_map Z.opp (nat_literal r)
  | String "+" r => nat_literal r
  | r => nat_literal r
  end.

(** The first element of [s.split(sep)]; a split is never empty. *)
Definition first (l : list string) : string := hd EmptyString l.

End PyStr.

(** [a >= b] on tuples of integers: lexicographic, a proper prefix
    is smaller. *)
Fixpoint tuple_ge (a b : list Z) : bool :=
  match a, b with
  | _, [] => true
  | [], _ :: _ => false
  | x :: a', y :: b' => if Z.eqb x y then tuple_ge a' b' else Z.ltb y x
  end.


(** ** Data model *)

(** The dictionary returned by [__salt__['cmd.run_all']]. *)
Record ExecResult := {
  retcode : Z;
  stdout : string;
  stderr : string
}.

(** [extra_search_dir] is either one string or a list of strings. *)
Inductive search_dirs :=
| DirString (s : string)
| DirList (l : list string).

(** The arguments of [create]; [None] is Python's [None]. *)
Record CreationOptions := {
  path : string;
  venv_bin : option string;
  no_site_packages : option bool;
  system_site_packages : bool;
  distribute : bool;
  clear : bool;
  python : option string;
  extra_search_dir : option search_dirs;
  never_download : option bool;
  prompt : option string;
  symlinks : option bool;
  upgrade : option bool;
  runas : option string
}.

(** What [create] reads from the minion it runs on: the [venv_bin]
    entries of [__opts__] and [__pillar__], whether a command resolves,
    [virtualenv.__version__] when [import virtualenv] succeeds, and the
    outcome of [cmd.run_all]. *)
Record Host := {
  opts_venv_bin : option string;
  pillar_venv_bin : option string;
  which : string -> bool;
  virtualenv_module : option string;
  run_all : string -> option string -> ExecResult
}.

(** An argument of [str.format]. *)
Inductive fmt_arg :=
| ArgStr (s : string)
| ArgRet (r : ExecResult).

(** The exceptions that leave [create]; a [CommandExecutionError]
    carries its format string and the arguments given to [format]. *)
Inductive exn :=
| CommandNotFoundError (command : option string)
| CommandExecutionError (fmt : string) (args : list fmt_arg)
| ValueError (literal : string).

(** The effects of [create], in the order they happen. *)
Inductive event :=
| Warn (msg : string)
| LogInfo (msg : string)
| RunAll (cmd : string) (user : option string).

(** ** Trace and error monad *)

Definition M (A : Type) : Type := (list event * (exn + A))%type.

Definition ret {A} (a : A) : M A := ([], inr a).

Definition raise {A} (e : exn) : M A := ([], inl e).

Definition bind {A B} (m : M A) (k : A -> M B) : M B :=
  match m with
  | (t, inl e) => (t, inl e)
  | (t, inr a) => let (t', r) := k a in (t ++ t', r)
  end.

Definition emit (e : event) : M unit := ([e], inr tt).

Notation "x <- m ;; k" := (bind m (fun x => k))
  (at level 61, m at next level, right associativity).
Notation "m ;;; k" := (bind m (fun _ => k))
  (at level 61, right associativity).

Definition trace {A} (m : M A) : list event := fst m.
Definition outcome {A} (m : M A) : exn + A := snd m.

(** ** Python values *)

Definition is_not_None {A} (x : option A) : bool :=
  match x with Some _ => true | None => false end.

(** [x is True] *)
Definition is_True (x : option bool) : bool :=
  match x with Some true => true | _ => false end.

(** Truth value of an optional string: [None] and [''] are false. *)
Definition truthy (x : option string) : bool :=
  match x with
  | Some (String _ _) => true
  | _ => false
  end.

(** [a or b] *)
Definition py_or (a b : option string) : option string :=
  if truthy a then a else b.

(** ** The module's messages *)

Definition no_site_packages_deprecated : string :=
  "'no_site_packages' has been deprecated. Please start using " ^^
  "'system_site_packages=False' which means exactly the same " ^^
  "as 'no_site_packages=True'".

Definition mutually_exclusive : string :=
  "'no_site_packages' and 'system_site_packages' are mutually " ^^
  "exclusive options. Please use only one, and prefer " ^^
  "'system_site_packages' since 'no_site_packages' has been " ^^
  "deprecated.".

Definition upgrade_not_supported : string :=
  "The `upgrade`(`--upgrade`) option is not supported " ^^
  "by {0!r}".

Definition symlinks_not_supported : string :=
  "The `symlinks`(`--symlinks`) option is not supported " ^^
  "by {0!r}".

Definition version_output_failed : string :=
  "Unable to get the virtualenv version output using {0!r}. " ^^
  "Returned data: {1!r}".

Definition distribute_deprecated : string :=
  "The virtualenv '--distribute' option has been " ^^
  "deprecated in virtualenv(>=1.10), as such, the " ^^
  "'distribute' option to `virtualenv.create()` has " ^^
  "also been deprecated and it's not necessary anymore.".

Definition never_download_deprecated : string :=
  "The virtualenv '--never-download' option has been " ^^
  "deprecated in virtualenv(>=1.10), as such, the " ^^
  "'never_download' option to `virtualenv.create()` has " ^^
  "also been deprecated and it's not necessary anymore.".

Definition no_site_packages_not_supported : string :=
  "The `no_site_packages`(`--no-site-packages`) option is not " ^^
  "supported by {0!r}".

Definition python_not_supported : string :=
  "The `python`(`--python`) option is not supported " ^^
  "by {0!r}".

Definition extra_search_dir_not_supported : string :=
  "The `extra_search_dir`(`--extra-search-dir`) option is not " ^^
  "supported by {0!r}".

Definition never_download_not_supported : string :=
  "The `never_download`(`--never-download`) option is not " ^^
  "supported by {0!r}".

Definition prompt_not_supported : string :=
  "The `prompt`(`--prompt`) option is not supported " ^^
  "by {0!r}".

(** ** [create] *)

(** Modelled from the spec: [salt.utils.check_or_die] is not part of the
    module; it raises [CommandNotFoundError] when the binary is absent
    or does not resolve on the host, and returns otherwise. *)
Definition check_or_die (h : Host) (command : option string) : M string :=
  match command with
  | None => raise (CommandNotFoundError None)
  | Some c => if which h c then ret c else raise (CommandNotFoundError (Some c))
  end.

(** [__salt__['cmd.run_all'](cmd, runas=runas)] *)
Definition cmd_run_all (h : Host) (cmd : string) (user : option string)
  : M ExecResult :=
  emit (RunAll cmd user) ;;; ret (run_all h cmd user).

(** [[int(i) for i in l]]: the first invalid literal raises. *)
Fixpoint ints (l : list string) : M (list Z) :=
  match l with
  | [] => ret []
  | i :: l' =>
      match PyStr.int i with
      | None => raise (ValueError i)
      | Some n => ns <- ints l' ;; ret (n :: ns)
      end
  end.

(** [tuple([int(i) for i in text.split('rc')[0].split('.')])] *)
Definition version_info (text : string) : M (list Z) :=
  ints (PyStr.split "." (PyStr.first (PyStr.split "rc" text))).

(** Lines 120-138: [VIRTUALENV_VERSION_INFO], from the imported module
    or, on [ImportError], from the output of [<venv_bin> --version]. *)
Definition virtualenv_version_info (h : Host) (venv_bin : string)
    (user : option string) : M (list Z) :=
  match virtualenv_module h with
  | Some version => version_info version
  | None =>
      let version_cmd := venv_bin ^^ " --version" in
      r <- cmd_run_all h version_cmd user ;;
      if (retcode r >? 0)%Z
      then raise (CommandExecutionError version_output_failed
                    [ArgStr version_cmd; ArgRet r])
      else version_info (PyStr.strip (stdout r))
  end.

(** Lines 155-161: [extra_search_dir] as the list the loop runs over. *)
Definition search_dir_list (d : search_dirs) : list string :=
  match d with
  | DirString s =>
      if PyStr.contains "," s
      then map PyStr.strip (PyStr.split "," s)
      else [s]
  | DirList l => l
  end.

(** Lines 162-163: the loop appending one token per entry. *)
Definition append_search_dirs (cmd : list string) (l : list string)
  : list string :=
  fold_left (fun cmd entry => cmd ++ ["--extra-search-dir=" ^^ entry]) l cmd.

(** Lines 104-175: the [virtualenv] branch. *)
Definition virtualenv_branch (h : Host) (o : CreationOptions)
    (venv_bin : string) (cmd : list string) : M (list string) :=
  if is_not_None (upgrade o) then
    raise (CommandExecutionError upgrade_not_supported [ArgStr venv_bin])
  else if is_not_None (symlinks o) then
    raise (CommandExecutionError symlinks_not_supported [ArgStr venv_bin])
  else
    VIRTUALENV_VERSION_INFO <- virtualenv_version_info h venv_bin (runas o) ;;
    let cmd :=
      if is_True (no_site_packages o)
      then cmd ++ ["--no-site-packages"] else cmd in
    cmd <- (if distribute o then
              if tuple_ge VIRTUALENV_VERSION_INFO [1; 10]%Z
              then emit (LogInfo distribute_deprecated) ;;; ret cmd
              else ret (cmd ++ ["--distribute"])
            else ret cmd) ;;
    let cmd :=
      match python o with
      | Some p => if truthy (Some p) then cmd ++ ["--python=" ^^ p] else cmd
      | None => cmd
      end in
    let cmd :=
      match extra_search_dir o with
      | Some d => append_search_dirs cmd (search_dir_list d)
      | None => cmd
      end in
    cmd <- (if is_True (never_download o) then
              if tuple_ge VIRTUALENV_VERSION_INFO [1; 10]%Z
              then emit (LogInfo never_download_deprecated) ;;; ret cmd
              else ret (cmd ++ ["--never-download"])
            else ret cmd) ;;
    let cmd :=
      match prompt o with
      | Some p => if truthy (Some p) then cmd ++ ["--prompt=" ^^ p] else cmd
      | None => cmd
      end in
    ret cmd.

(** Lines 177-212: the [pyvenv] branch. *)
Definition pyvenv_branch (o : CreationOptions) (venv_bin : string)
    (cmd : list string) : M (list string) :=
  if is_not_None (no_site_packages o) then
    raise (CommandExecutionError no_site_packages_not_supported
             [ArgStr venv_bin])
  else if is_not_None (python o) then
    raise (CommandExecutionError python_not_supported [ArgStr venv_bin])
  else if is_not_None (extra_search_dir o) then
    raise (CommandExecutionError extra_search_dir_not_supported
             [ArgStr venv_bin])
  else if is_not_None (never_download o) then
    raise (CommandExecutionError never_download_not_supported
             [ArgStr venv_bin])
  else if is_not_None (prompt o) then
    raise (CommandExecutionError prompt_not_supported [ArgStr venv_bin])
  else
    let cmd := if is_True (upgrade o) then cmd ++ ["--upgrade"] else cmd in
    let cmd := if is_True (symlinks o) then cmd ++ ["--symlinks"] else cmd in
    ret cmd.

(** Lines 75-78: the binary [create] works with. *)
Definition resolve_venv_bin (h : Host) (o : CreationOptions) : option string :=
  match venv_bin o with
  | None => py_or (opts_venv_bin h) (pillar_venv_bin h)
  | Some b => Some b
  end.

(** Lines 75-221: everything [create] does before it runs the command;
    the result is the token list [cmd]. *)
Definition create_cmd (h : Host) (o : CreationOptions) : M (list string) :=
  venv_bin <- check_or_die h (resolve_venv_bin h o) ;;
  (if is_not_None (no_site_packages o)
   then emit (Warn no_site_packages_deprecated)
   else ret tt) ;;;
  if is_True (no_site_packages o) && system_site_packages o then
    raise (CommandExecutionError mutually_exclusive [])
  else
    let cmd := [venv_bin] in
    cmd <- (if negb (PyStr.contains "pyvenv" venv_bin)
            then virtualenv_branch h o venv_bin cmd
            else pyvenv_branch o venv_bin cmd) ;;
    let cmd := if clear o then cmd ++ ["--clear"] else cmd in
    let cmd :=
      if system_site_packages o
      then cmd ++ ["--system-site-packages"] else cmd in
    let cmd := cmd ++ [path o] in
    ret cmd.

(** [create]: line 223 runs the joined tokens and returns what
    [cmd.run_all] returns. *)
Definition create (h : Host) (o : CreationOptions) : M ExecResult :=
  cmd <- create_cmd h o ;;
  cmd_run_all h (PyStr.join " " cmd) (runas o).

(** The branch [create] takes for a binary. *)
Definition backend_branch (h : Host) (o : CreationOptions) (b : string)
  : M (list string) :=
  if negb (PyStr.contains "pyvenv" b)
  then virtualenv_branch h o b [b]
  else pyvenv_branch o b [b].

(** ** The flag mappings in closed form

    The three token families as the specification lists them, to be
    compared with what the appends of [create] produce. *)

(** A [--name=value] token for a non-empty value. *)
Definition value_token (name : string) (x : option string) : list string :=
  match x with
  | Some (String c r) => [name ^^ String c r]
  | _ => []
  end.

Definition search_dir_token (entry : string) : string :=
  "--extra-search-dir=" ^^ entry.

(** Legacy order: [--no-site-packages], [--distribute], [--python=],
    [--extra-search-dir=], [--never-download], [--prompt=]. *)
Definition legacy_flag_mapping (version : list Z) (o : CreationOptions)
  : list string :=
  (if is_True (no_site_packages o) then ["--no-site-packages"] else []) ++
  (if distribute o && negb (tuple_ge version [1; 10]%Z)
   then ["--distribute"] else []) ++
  value_token "--python=" (python o) ++
  match extra_search_dir o with
  | Some d => map search_dir_token (search_dir_list d)
  | None => []
  end ++
  (if is_True (never_download o) && negb (tuple_ge version [1; 10]%Z)
   then ["--never-download"] else []) ++
  value_token "--prompt=" (prompt o).

(** The informational notes logged where a flag is obsolete. *)
Definition legacy_notes (version : list Z) (o : CreationOptions)
  : list event :=
  (if distribute o && tuple_ge version [1; 10]%Z
   then [LogInfo distribute_deprecated] else []) ++
  (if is_True (never_download o) && tuple_ge version [1; 10]%Z
   then [LogInfo never_download_deprecated] else []).

(** Standard order: [--upgrade], [--symlinks]. *)
Definition standard_flag_mapping (o : CreationOptions) : list string :=
  (if is_True (upgrade o) then ["--upgrade"] else []) ++
  (if is_True (symlinks o) then ["--symlinks"] else []).

(** Common order: [--clear], [--system-site-packages]. *)
Definition common_flag_mapping (o : CreationOptions) : list string :=
  (if clear o then ["--clear"] else []) ++
  (if system_site_packages o then ["--system-site-packages"] else []).

(** The normalisation of [extra_search_dir] in the specification's
    words: a single string is split on commas and every element is
    trimmed. *)
Definition spec_search_dir_list (d : search_dirs) : list string :=
  match d with
  | DirString s => map PyStr.strip (PyStr.split "," s)
  | DirList l => l
  end.

(** The options a backend rejects, with the names its message uses. *)
Inductive opt_name :=
| NoSitePackages | Python | ExtraSearchDir | NeverDownload | Prompt
| Upgrade | Symlinks.

Definition opt_label (n : opt_name) : string :=
  match n with
  | NoSitePackages => "no_site_packages"
  | Python => "python"
  | ExtraSearchDir => "extra_search_dir"
  | NeverDownload => "never_download"
  | Prompt => "prompt"
  | Upgrade => "upgrade"
  | Symlinks => "symlinks"
  end.

Definition opt_flag (n : opt_name) : string :=
  match n with
  | NoSitePackages => "--no-site-packages"
  | Python => "--python"
  | ExtraSearchDir => "--extra-search-dir"
  | NeverDownload => "--never-download"
  | Prompt => "--prompt"
  | Upgrade => "--upgrade"
  | Symlinks => "--symlinks"
  end.

(** An option is set when its argument is not [None]. *)
Definition opt_is_set (o : CreationOptions) (n : opt_name) : bool :=
  match n with
  | NoSitePackages => is_not_None (no_site_packages o)
  | Python => is_not_None (python o)
  | ExtraSearchDir => is_not_None (extra_search_dir o)
  | NeverDownload => is_not_None (never_download o)
  | Prompt => is_not_None (prompt o)
  | Upgrade => is_not_None (upgrade o)
  | Symlinks => is_not_None (symlinks o)
  end.

(** The message naming an unsupported option; [{0!r}] is filled with
    the backend binary. *)
Definition not_supported (n : opt_name) : string :=
  "The `" ^^ opt_label n ^^ "`(`" ^^ opt_flag n ^^
  "`) option is not supported by {0!r}".

Definition virtualenv_only : list opt_name :=
  [NoSitePackages; Python; ExtraSearchDir; NeverDownload; Prompt].

Definition pyvenv_only : list opt_name := [Upgrade; Symlinks].

(** A flag token starts with two dashes. *)
Definition is_flag (t : string) : bool := PyStr.startswith "--" t.

Definition is_search_dir_token (t : string) : bool :=
  PyStr.startswith "--extra-search-dir=" t.

Definition is_RunAll (e : event) : bool :=
  match e with RunAll _ _ => true | _ => false end.

(** The warning [create] issues when [no_site_packages] is given. *)
Definition deprecation_trace (o : CreationOptions) : list event :=
  if is_not_None (no_site_packages o)
  then [Warn no_site_packages_deprecated] else [].

(** ** Sample calls *)

(** The default arguments of [create]. *)
Definition defaults (p : string) : CreationOptions :=
  {| path := p; venv_bin := None; no_site_packages := None;
     system_site_packages := false; distribute := false; clear := false;
     python := None; extra_search_dir := None; never_download := None;
     prompt := None; symlinks := None; upgrade := None; runas := None |}.

(** A minion with the module's own [__opts__] and [__pillar__], on
    which every command resolves or none does, and every command run
    gives the same result. *)
Definition minion (found : bool) (module : option string) (r : ExecResult)
  : Host :=
  {| opts_venv_bin := Some "virtualenv"; pillar_venv_bin := None;
     which := fun _ => found; virtualenv_module := module;
     run_all := fun _ _ => r |}.

(** A minion without the [virtualenv] module, on which
    [virtualenv --version] gives [probe] and every other command gives
    [final]. *)
Definition minion_probing (probe final : ExecResult) : Host :=
  {| opts_venv_bin := Some "virtualenv"; pillar_venv_bin := None;
     which := fun _ => true; virtualenv_module := None;
     run_all := fun cmd _ =>
       if String.eqb cmd "virtualenv --version" then probe else final |}.

Definition exited (code : Z) (out : string) : ExecResult :=
  {| retcode := code; stdout := out; stderr := EmptyString |}.

(** [create('/tmp/env', no_site_packages=True, system_site_packages=True)] *)
Definition both_site_options (bin : option string) : CreationOptions :=
  {| path := "/tmp/env"; venv_bin := bin; no_site_packages := Some true;
     system_site_packages := true; distribute := false; clear := false;
     python := None; extra_search_dir := None; never_download := None;
     prompt := None; symlinks := None; upgrade := None; runas := None |}.

(** [create('/tmp/env', ..., upgrade=True)] with both site options. *)
Definition both_site_upgrade : CreationOptions :=
  {| path := "/tmp/env"; venv_bin := None; no_site_packages := Some true;
     system_site_packages := true; distribute := false; clear := false;
     python := None; extra_search_dir := None; never_download := None;
     prompt := None; symlinks := None; upgrade := Some true; runas := None |}.

(** [create('/tmp/env', distribute=d, never_download=n)] *)
Definition distribute_options (d : bool) (n : option bool) : CreationOptions :=
  {| path := "/tmp/env"; venv_bin := Some "virtualenv";
     no_site_packages := None;
     system_site_packages := false; distribute := d; clear := false;
     python := None; extra_search_dir := None; never_download := n;
     prompt := None; symlinks := None; upgrade := None; runas := None |}.

(** [create('/tmp/env', extra_search_dir=d)] *)
Definition search_dir_options (d : search_dirs) : CreationOptions :=
  {| path := "/tmp/env"; venv_bin := None; no_site_packages := None;
     system_site_packages := false; distribute := false; clear := false;
     python := None; extra_search_dir := Some d; never_download := None;
     prompt := None; symlinks := None; upgrade := None; runas := None |}.

(** [create('/tmp/env', venv_bin='pyvenv', clear=True,
    system_site_packages=True)] *)
Definition pyvenv_clear_options : CreationOptions :=
  {| path := "/tmp/env"; venv_bin := Some "pyvenv"; no_site_packages := None;
     system_site_packages := true; distribute := false; clear := true;
     python := None; extra_search_dir := None; never_download := None;
     prompt := None; symlinks := None; upgrade := None; runas := None |}.

(** [create('/tmp/env', venv_bin='pyvenv', python='python3')] *)
Definition pyvenv_python_options : CreationOptions :=
  {| path := "/tmp/env"; venv_bin := Some "pyvenv"; no_site_packages := None;
     system_site_packages := false; distribute := false; clear := false;
     python := Some "python3"; extra_search_dir := None;
     never_download := None;
     prompt := None; symlinks := None; upgrade := None; runas := None |}.

(** [create('/tmp/env', symlinks=False)] *)
Definition symlinks_options : CreationOptions :=
  {| path := "/tmp/env"; venv_bin := None; no_site_packages := None;
     system_site_packages := false; distribute := false; clear := false;
     python := None; extra_search_dir := None; never_download := None;
     prompt := None; symlinks := Some false; upgrade := None; runas := None |}.

(** ** The outcomes of a call, case by case *)

(** Whether the binary [create] works with resolves on the host. *)
Definition resolves (h : Host) (o : CreationOptions) : bool :=
  match resolve_venv_bin h o with
  | Some b => which h b
  | None => false
  end.

(** The options the backend of binary [b] does not take. *)
Definition foreign_options (b : string) : list opt_name :=
  if PyStr.contains "pyvenv" b then virtualenv_only else pyvenv_only.

(** The seven ways [create] gets to its last line or stops before it:
    the trace so far, and the error or the tokens. *)
Inductive resolution (h : Host) (o : CreationOptions)
  : M (list string) -> Prop :=
| res_no_binary :
    resolve_venv_bin h o = None ->
    resolution h o ([], inl (CommandNotFoundError None))
| res_not_found b :
    resolve_venv_bin h o = Some b -> which h b = false ->
    resolution h o ([], inl (CommandNotFoundError (Some b)))
| res_clash b :
    resolve_venv_bin h o = Some b -> which h b = true ->
    no_site_packages o = Some true -> system_site_packages o = true ->
    resolution h o
      ([Warn no_site_packages_deprecated],
       inl (CommandExecutionError mutually_exclusive []))
| res_rejected b n :
    resolve_venv_bin h o = Some b -> which h b = true ->
    is_True (no_site_packages o) && system_site_packages o = false ->
    find (opt_is_set o) (foreign_options b) = Some n ->
    resolution h o
      (deprecation_trace o,
       inl (CommandExecutionError (not_supported n) [ArgStr b]))
| res_pyvenv b :
    resolve_venv_bin h o = Some b -> which h b = true ->
    is_True (no_site_packages o) && system_site_packages o = false ->
    PyStr.contains "pyvenv" b = true ->
    find (opt_is_set o) virtualenv_only = None ->
    resolution h o
      (deprecation_trace o,
       inr (b :: (standard_flag_mapping o ++ common_flag_mapping o)
              ++ [path o]))
| res_version_failed b e :
    resolve_venv_bin h o = Some b -> which h b = true ->
    is_True (no_site_packages o) && system_site_packages o = false ->
    PyStr.contains "pyvenv" b = false ->
    find (opt_is_set o) pyvenv_only = None ->
    outcome (virtualenv_version_info h b (runas o)) = inl e ->
    resolution h o
      (deprecation_trace o ++ trace (virtualenv_version_info h b (runas o)),
       inl e)
| res_virtualenv b version :
    resolve_venv_bin h o = Some b -> which h b = true ->
    is_True (no_site_packages o) && system_site_packages o = false ->
    PyStr.contains "pyvenv" b = false ->
    find (opt_is_set o) pyvenv_only = None ->
    outcome (virtualenv_version_info h b (runas o)) = inr version ->
    resolution h o
      (deprecation_trace o ++ trace (virtualenv_version_info h b (runas o))
       ++ legacy_notes version o,
       inr (b :: (legacy_flag_mapping version o ++ common_flag_mapping o)
              ++ [path o])).

Definition is_Warn (e : event) : bool :=
  match e with Warn _ => true | _ => false end.

Definition is_LogInfo (e : event) : bool :=
  match e with LogInfo _ => true | _ => false end.

(** How often a character occurs in a string. *)
Fixpoint count_char (c : ascii) (s : string) : nat :=
  match s with
  | EmptyString => 0
  | String a s' => (if Ascii.eqb c a then 1 else 0) + count_char c s'
  end.

Definition is_python_token (t : string) : bool :=
  PyStr.startswith "--python=" t.

Definition is_prompt_token (t : string) : bool :=
  PyStr.startswith "--prompt=" t.

(** [create('/tmp/env', venv_bin='pyvenv', upgrade=False, symlinks=True)] *)
Definition pyvenv_symlinks_options : CreationOptions :=
  {| path := "/tmp/env"; venv_bin := Some "pyvenv"; no_site_packages := None;
     system_site_packages := false; distribute := false; clear := false;
     python := None; extra_search_dir := None; never_download := None;
     prompt := None; symlinks := Some true; upgrade := Some false;
     runas := Some "deploy" |}.

(** [create('/tmp/env', no_site_packages=False, python='python2.7',
    prompt='', runas='deploy')] *)
Definition python_options : CreationOptions :=
  {| path := "/tmp/env"; venv_bin := None; no_site_packages := Some false;
     system_site_packages := true; distribute := false; clear := false;
     python := Some "python2.7"; extra_search_dir := None;
     never_download := None; prompt := Some EmptyString;
     symlinks := None; upgrade := None; runas := Some "deploy" |}.

(** * Properties *)

(** ** Concrete runs *)

Example split_commas : PyStr.split "," "a, b,c" = ["a"; " b"; "c"].
Proof. reflexivity. Qed.

Example split_rc : PyStr.split "rc" "1.10rc2" = ["1.10"; "2"].
Proof. reflexivity. Qed.

Example split_trailing : PyStr.split "," "a," = ["a"; EmptyString].
Proof. reflexivity. Qed.

Example strip_both : PyStr.strip "  a b  " = "a b".
Proof. reflexivity. Qed.

Example int_ok : PyStr.int " 10 " = Some 10%Z.
Proof. reflexivity. Qed.

Example int_bad : PyStr.int "1a" = None.
Proof. reflexivity. Qed.

Example tuple_ge_1_9 : tuple_ge [1; 9]%Z [1; 10]%Z = false.
Proof. reflexivity. Qed.

Example tuple_ge_1_10_1 : tuple_ge [1; 10; 1]%Z [1; 10]%Z = true.
Proof. reflexivity. Qed.

Example run_defaults :
  create (minion true (Some "1.9") (exited 0 "done")) (defaults "/tmp/env")
  = ([RunAll "virtualenv /tmp/env" None], inr (exited 0 "done")).
Proof. reflexivity. Qed.

Example run_probe :
  create (minion true None (exited 0 "1.10rc1")) (distribute_options true (Some true))
  = ([RunAll "virtualenv --version" None; LogInfo distribute_deprecated;
      LogInfo never_download_deprecated; RunAll "virtualenv /tmp/env" None],
     inr (exited 0 "1.10rc1")).
Proof. reflexivity. Qed.

Example run_distribute_1_9 :
  outcome (create_cmd (minion true (Some "1.9") (exited 0 EmptyString)) (distribute_options true (Some true)))
  = inr ["virtualenv"; "--distribute"; "--never-download"; "/tmp/env"].
Proof. reflexivity. Qed.

Example run_pyvenv :
  outcome (create_cmd (minion true None (exited 0 EmptyString)) pyvenv_clear_options)
  = inr ["pyvenv"; "--clear"; "--system-site-packages"; "/tmp/env"].
Proof. reflexivity. Qed.

Example run_search_dirs :
  outcome (create_cmd (minion true (Some "1.9") (exited 0 EmptyString))
             (search_dir_options (DirString "a, b,c")))
  = inr ["virtualenv"; "--extra-search-dir=a"; "--extra-search-dir=b";
         "--extra-search-dir=c"; "/tmp/env"].
Proof. reflexivity. Qed.

Example not_supported_upgrade : not_supported Upgrade = upgrade_not_supported.
Proof. reflexivity. Qed.

(** ** The monad *)

Lemma outcome_bind_inr (A B : Type) (m : M A) (k : A -> M B) (b : B) :
  outcome (bind m k) = inr b ->
  exists a, outcome m = inr a /\ outcome (k a) = inr b.
Proof.
  destruct m as [t [e | a]]; simpl.
  - discriminate.
  - intros H. exists a. split; [reflexivity |].
    destruct (k a) as [t' r]. exact H.
Qed.

Lemma bind_inl (A B : Type) (m : M A) (k : A -> M B) (e : exn) :
  outcome m = inl e -> bind m k = (trace m, inl e).
Proof.
  destruct m as [t [e' | a]]; simpl; intros H; [congruence | discriminate].
Qed.

Lemma bind_inr (A B : Type) (m : M A) (k : A -> M B) (a : A) :
  outcome m = inr a ->
  bind m k = (trace m ++ trace (k a), outcome (k a)).
Proof.
  destruct m as [t [e' | a']]; simpl; intros H; [discriminate |].
  injection H as ->. destruct (k a) as [t' r]. reflexivity.
Qed.

(** ** The appends, in closed form *)

Lemma append_search_dirs_map (l : list string) : forall cmd,
  append_search_dirs cmd l = cmd ++ map search_dir_token l.
Proof.
  unfold append_search_dirs.
  induction l as [| e l IH]; intros cmd; simpl.
  - now rewrite app_nil_r.
  - rewrite IH, <- app_assoc. reflexivity.
Qed.

Lemma version_info_trace (text : string) : trace (version_info text) = [].
Proof.
  unfold version_info.
  generalize (PyStr.split "." (PyStr.first (PyStr.split "rc" text))).
  intros l. induction l as [| i l IH]; simpl; [reflexivity |].
  destruct (PyStr.int i); [| reflexivity].
  destruct (ints l) as [t [e | ns]]; simpl in *; subst; reflexivity.
Qed.

Lemma version_info_error (text : string) (e : exn) :
  outcome (version_info text) = inl e -> exists literal, e = ValueError literal.
Proof.
  unfold version_info.
  generalize (PyStr.split "." (PyStr.first (PyStr.split "rc" text))).
  intros l. induction l as [| i l IH]; simpl; [discriminate |].
  destruct (PyStr.int i).
  - destruct (ints l) as [t [e' | ns]]; simpl in *; [| discriminate].
    intros [= <-]. now apply IH.
  - simpl. intros [= <-]. now exists i.
Qed.

(** With [upgrade] and [symlinks] absent, the [virtualenv] branch stops
    where the version cannot be determined. *)
Lemma virtualenv_branch_version_inl h o b cmd e :
  upgrade o = None -> symlinks o = None ->
  outcome (virtualenv_version_info h b (runas o)) = inl e ->
  virtualenv_branch h o b cmd
  = (trace (virtualenv_version_info h b (runas o)), inl e).
Proof.
  intros Hu Hs He. unfold virtualenv_branch. rewrite Hu, Hs. simpl.
  now apply bind_inl.
Qed.

(** Once the version is known the branch cannot fail: it logs the
    notes and appends the legacy tokens. *)
Lemma virtualenv_branch_version_inr h o b cmd version :
  upgrade o = None -> symlinks o = None ->
  outcome (virtualenv_version_info h b (runas o)) = inr version ->
  virtualenv_branch h o b cmd
  = (trace (virtualenv_version_info h b (runas o)) ++ legacy_notes version o,
     inr (cmd ++ legacy_flag_mapping version o)).
Proof.
  intros Hu Hs Hv. unfold virtualenv_branch. rewrite Hu, Hs. simpl.
  rewrite (bind_inr _ _ _ _ version Hv).
  unfold legacy_flag_mapping, legacy_notes, trace, outcome.
  destruct (extra_search_dir o) as [d |],
    (no_site_packages o) as [[|] |], (distribute o),
    (tuple_ge version [1; 10]%Z), (python o) as [[| c r] |],
    (never_download o) as [[|] |], (prompt o) as [[| c' r'] |];
    cbn -[append_search_dirs search_dir_list search_dir_token];
    rewrite ?append_search_dirs_map;
    repeat rewrite <- app_assoc; simpl; rewrite ?app_nil_r; reflexivity.
Qed.

Lemma virtualenv_branch_inr h o b cmd cmd' :
  outcome (virtualenv_branch h o b cmd) = inr cmd' ->
  upgrade o = None /\ symlinks o = None /\
  exists version,
    outcome (virtualenv_version_info h b (runas o)) = inr version /\
    cmd' = cmd ++ legacy_flag_mapping version o.
Proof.
  intros H.
  destruct (upgrade o) eqn:Hu.
  { unfold virtualenv_branch in H. rewrite Hu in H. discriminate. }
  destruct (symlinks o) eqn:Hs.
  { unfold virtualenv_branch in H. rewrite Hu, Hs in H. discriminate. }
  do 2 (split; [reflexivity |]).
  destruct (outcome (virtualenv_version_info h b (runas o)))
    as [e | version] eqn:Hv.
  - rewrite (virtualenv_branch_version_inl h o b cmd e Hu Hs Hv) in H.
    discriminate.
  - rewrite (virtualenv_branch_version_inr h o b cmd version Hu Hs Hv) in H.
    injection H as <-. now exists version.
Qed.

Lemma pyvenv_branch_inr o b cmd cmd' :
  outcome (pyvenv_branch o b cmd) = inr cmd' ->
  find (opt_is_set o) virtualenv_only = None /\
  cmd' = cmd ++ standard_flag_mapping o.
Proof.
  unfold pyvenv_branch, standard_flag_mapping. simpl.
  destruct (no_site_packages o); [discriminate |].
  destruct (python o); [discriminate |].
  destruct (extra_search_dir o); [discriminate |].
  destruct (never_download o); [discriminate |].
  destruct (prompt o); [discriminate |]. simpl.
  destruct (upgrade o) as [[|] |], (symlinks o) as [[|] |]; simpl;
    intros [= <-]; rewrite <- ?app_assoc, ?app_nil_r; auto.
Qed.

Lemma pyvenv_branch_trace o b cmd : trace (pyvenv_branch o b cmd) = [].
Proof.
  unfold pyvenv_branch.
  destruct (no_site_packages o), (python o), (extra_search_dir o),
    (never_download o), (prompt o); reflexivity.
Qed.

(** The first virtualenv-only option that is set is the one the
    [pyvenv] branch rejects. *)
Lemma pyvenv_branch_rejects o b cmd n :
  find (opt_is_set o) virtualenv_only = Some n ->
  pyvenv_branch o b cmd
  = ([], inl (CommandExecutionError (not_supported n) [ArgStr b])).
Proof.
  unfold pyvenv_branch. simpl.
  destruct (no_site_packages o); simpl; [now intros [= <-] |].
  destruct (python o); simpl; [now intros [= <-] |].
  destruct (extra_search_dir o); simpl; [now intros [= <-] |].
  destruct (never_download o); simpl; [now intros [= <-] |].
  destruct (prompt o); simpl; [now intros [= <-] | discriminate].
Qed.

(** The first pyvenv-only option that is set is the one the
    [virtualenv] branch rejects. *)
Lemma virtualenv_branch_rejects h o b cmd n :
  find (opt_is_set o) pyvenv_only = Some n ->
  virtualenv_branch h o b cmd
  = ([], inl (CommandExecutionError (not_supported n) [ArgStr b])).
Proof.
  unfold virtualenv_branch. simpl.
  destruct (upgrade o); simpl; [now intros [= <-] |].
  destruct (symlinks o); simpl; [now intros [= <-] | discriminate].
Qed.

(** Once the binary resolves and the two site options do not clash,
    [create_cmd] is its backend branch followed by the common tokens
    and the path. *)
Lemma create_cmd_unfold h o b :
  resolve_venv_bin h o = Some b ->
  which h b = true ->
  is_True (no_site_packages o) && system_site_packages o = false ->
  create_cmd h o
  = (deprecation_trace o ++ trace (backend_branch h o b),
     match outcome (backend_branch h o b) with
     | inl e => inl e
     | inr cmd => inr (cmd ++ common_flag_mapping o ++ [path o])
     end).
Proof.
  intros Hb Hw Hx.
  unfold create_cmd, check_or_die, deprecation_trace, backend_branch.
  rewrite Hb, Hw. simpl. rewrite Hx.
  destruct (if negb (PyStr.contains "pyvenv" b)
            then virtualenv_branch h o b [b]
            else pyvenv_branch o b [b]) as [t [e | cmd]];
    unfold common_flag_mapping;
    destruct (no_site_packages o) as [x |], (clear o), (system_site_packages o);
    simpl; rewrite ?app_nil_r, <- ?app_assoc; reflexivity.
Qed.

Lemma create_cmd_inr h o cmd :
  outcome (create_cmd h o) = inr cmd ->
  exists b,
    resolve_venv_bin h o = Some b /\ which h b = true /\
    is_True (no_site_packages o) && system_site_packages o = false /\
    exists cmd', outcome (backend_branch h o b) = inr cmd' /\
                 cmd = cmd' ++ common_flag_mapping o ++ [path o].
Proof.
  intros H.
  destruct (resolve_venv_bin h o) as [b |] eqn:Hb.
  2:{ unfold create_cmd in H. rewrite Hb in H. discriminate. }
  destruct (which h b) eqn:Hw.
  2:{ unfold create_cmd in H. rewrite Hb in H. simpl in H.
      rewrite Hw in H. discriminate. }
  destruct (is_True (no_site_packages o) && system_site_packages o) eqn:Hx.
  { unfold create_cmd in H. rewrite Hb in H. simpl in H. rewrite Hw in H.
    simpl in H. rewrite Hx in H.
    destruct (no_site_packages o); simpl in H; discriminate. }
  exists b. do 3 (split; [assumption || reflexivity |]).
  rewrite (create_cmd_unfold h o b Hb Hw Hx) in H. simpl in H.
  destruct (outcome (backend_branch h o b)) as [e | cmd']; [discriminate |].
  injection H as <-. now exists cmd'.
Qed.

(** [create] runs the assembled command and returns its result, whatever
    the result is. *)
Lemma create_unfold h o :
  create h o
  = match outcome (create_cmd h o) with
    | inl e => (trace (create_cmd h o), inl e)
    | inr cmd =>
        (trace (create_cmd h o) ++ [RunAll (PyStr.join " " cmd) (runas o)],
         inr (run_all h (PyStr.join " " cmd) (runas o)))
    end.
Proof.
  unfold create. destruct (create_cmd h o) as [t [e | cmd]]; reflexivity.
Qed.

Lemma version_probe_unfold h b user :
  virtualenv_module h = None ->
  virtualenv_version_info h b user
  = let r := run_all h (b ^^ " --version") user in
    ([RunAll (b ^^ " --version") user],
     if (retcode r >? 0)%Z
     then inl (CommandExecutionError version_output_failed
                 [ArgStr (b ^^ " --version"); ArgRet r])
     else outcome (version_info (PyStr.strip (stdout r)))).
Proof.
  intros Hm. unfold virtualenv_version_info, cmd_run_all. rewrite Hm. simpl.
  destruct (retcode _ >? 0)%Z; [reflexivity |].
  pose proof (version_info_trace (PyStr.strip (stdout (run_all h (b ^^ " --version") user)))) as Ht.
  destruct (version_info _) as [t r]. simpl in Ht. subst t. reflexivity.
Qed.

Lemma first_set_exists (o : CreationOptions) (l : list opt_name) (n : opt_name) :
  In n l -> opt_is_set o n = true ->
  exists n', find (opt_is_set o) l = Some n' /\ In n' l /\ opt_is_set o n' = true.
Proof.
  intros Hin Hset.
  destruct (find (opt_is_set o) l) as [n' |] eqn:Hf.
  - exists n'. split; [reflexivity |]. now apply find_some in Hf.
  - rewrite (find_none _ _ Hf n Hin) in Hset. discriminate.
Qed.

(** ** Validation *)

Section Validation.

Variables (h : Host) (o : CreationOptions) (b : string).

(** The binary [create] works with resolves on the host. *)
Hypothesis Hbin : resolve_venv_bin h o = Some b.
Hypothesis Hwhich : which h b = true.

(** C1 (as amended): when the binary resolves, a call with
    [no_site_packages] and [system_site_packages] both [True] raises the
    mutual-exclusion [CommandExecutionError] whatever the other
    arguments and the backend are; the deprecation warning is the only
    effect, so no token has been appended and no command has run. *)
Theorem mutually_exclusive_before_anything :
  no_site_packages o = Some true ->
  system_site_packages o = true ->
  create h o
  = ([Warn no_site_packages_deprecated],
     inl (CommandExecutionError mutually_exclusive [])).
Proof.
  intros Hn Hs. unfold create, create_cmd, check_or_die.
  rewrite Hbin, Hwhich, Hn, Hs. reflexivity.
Qed.

(** The two site options do not clash. *)
Hypothesis Hsite :
  is_True (no_site_packages o) && system_site_packages o = false.

Lemma create_rejected (e : exn) :
  backend_branch h o b = ([], inl e) ->
  create h o = (deprecation_trace o, inl e).
Proof.
  intros Hr. rewrite create_unfold.
  rewrite (create_cmd_unfold h o b Hbin Hwhich Hsite), Hr. simpl.
  now rewrite app_nil_r.
Qed.

(** C3 (as amended): with a resolving [pyvenv] binary and no clash of
    the two site options, a call that sets any of [no_site_packages],
    [python], [extra_search_dir], [never_download], [prompt] raises a
    [CommandExecutionError] whose message names the first of them that
    is set, in that order, and whose argument is the binary; nothing
    is run. *)
Theorem pyvenv_rejects_virtualenv_options (n : opt_name) :
  PyStr.contains "pyvenv" b = true ->
  In n virtualenv_only ->
  opt_is_set o n = true ->
  exists n',
    find (opt_is_set o) virtualenv_only = Some n' /\
    In n' virtualenv_only /\ opt_is_set o n' = true /\
    create h o
    = (deprecation_trace o,
       inl (CommandExecutionError (not_supported n') [ArgStr b])).
Proof.
  intros Hpy Hin Hset.
  destruct (first_set_exists o virtualenv_only n Hin Hset)
    as (n' & Hf & Hin' & Hset').
  exists n'. do 3 (split; [assumption |]).
  apply create_rejected. unfold backend_branch. rewrite Hpy. simpl.
  now apply pyvenv_branch_rejects.
Qed.

(** C4 (as amended): with a resolving binary that is not [pyvenv] and
    no clash of the two site options, a call that sets [upgrade] or
    [symlinks], to [True] or to [False], raises a
    [CommandExecutionError] whose message names [upgrade] if it is set
    and [symlinks] otherwise, and whose argument is the binary;
    nothing is run. *)
Theorem virtualenv_rejects_pyvenv_options (n : opt_name) :
  PyStr.contains "pyvenv" b = false ->
  In n pyvenv_only ->
  opt_is_set o n = true ->
  exists n',
    find (opt_is_set o) pyvenv_only = Some n' /\
    In n' pyvenv_only /\ opt_is_set o n' = true /\
    create h o
    = (deprecation_trace o,
       inl (CommandExecutionError (not_supported n') [ArgStr b])).
Proof.
  intros Hpy Hin Hset.
  destruct (first_set_exists o pyvenv_only n Hin Hset)
    as (n' & Hf & Hin' & Hset').
  exists n'. do 3 (split; [assumption |]).
  apply create_rejected. unfold backend_branch. rewrite Hpy. simpl.
  now apply virtualenv_branch_rejects.
Qed.

End Validation.

Lemma mutually_exclusive_before_anything_witness :
  create (minion true None (exited 0 EmptyString)) (both_site_options (Some "pyvenv"))
  = ([Warn no_site_packages_deprecated],
     inl (CommandExecutionError mutually_exclusive [])).
Proof.
  apply (mutually_exclusive_before_anything
           (minion true None (exited 0 EmptyString))
           (both_site_options (Some "pyvenv")) "pyvenv");
    reflexivity.
Defined.

(** C1, as stated, fails where the binary does not resolve: the call
    raises [CommandNotFoundError] before the site options are looked
    at. *)
Lemma mutually_exclusive_after_binary_check :
  no_site_packages (both_site_options None) = Some true /\
  system_site_packages (both_site_options None) = true /\
  create (minion false None (exited 0 EmptyString)) (both_site_options None)
  = ([], inl (CommandNotFoundError (Some "virtualenv"))) /\
  outcome (create (minion false None (exited 0 EmptyString))
             (both_site_options None))
  <> inl (CommandExecutionError mutually_exclusive []).
Proof.
  repeat split; try reflexivity. discriminate.
Qed.

Lemma pyvenv_rejects_virtualenv_options_witness :
  exists n',
    find (opt_is_set pyvenv_python_options) virtualenv_only = Some n' /\
    In n' virtualenv_only /\ opt_is_set pyvenv_python_options n' = true /\
    create (minion true None (exited 0 EmptyString)) pyvenv_python_options
    = (deprecation_trace pyvenv_python_options,
       inl (CommandExecutionError (not_supported n') [ArgStr "pyvenv"])).
Proof.
  apply (pyvenv_rejects_virtualenv_options
           (minion true None (exited 0 EmptyString))
           pyvenv_python_options "pyvenv"
           eq_refl eq_refl eq_refl Python eq_refl).
  - simpl. auto.
  - reflexivity.
Defined.

(** C3, as stated, fails where the two site options clash: with
    [pyvenv] and [no_site_packages] set, the call raises the
    mutual-exclusion error, which does not name the backend. *)
Lemma pyvenv_clash_reported_first :
  PyStr.contains "pyvenv" "pyvenv" = true /\
  opt_is_set (both_site_options (Some "pyvenv")) NoSitePackages = true /\
  create (minion true None (exited 0 EmptyString)) (both_site_options (Some "pyvenv"))
  = ([Warn no_site_packages_deprecated],
     inl (CommandExecutionError mutually_exclusive [])) /\
  forall n, outcome (create (minion true None (exited 0 EmptyString))
                       (both_site_options (Some "pyvenv")))
            <> inl (CommandExecutionError (not_supported n) [ArgStr "pyvenv"]).
Proof.
  repeat split; try reflexivity. intros n. discriminate.
Qed.

Lemma virtualenv_rejects_pyvenv_options_witness :
  exists n',
    find (opt_is_set symlinks_options) pyvenv_only = Some n' /\
    In n' pyvenv_only /\ opt_is_set symlinks_options n' = true /\
    create (minion true (Some "1.9") (exited 0 EmptyString)) symlinks_options
    = (deprecation_trace symlinks_options,
       inl (CommandExecutionError (not_supported n') [ArgStr "virtualenv"])).
Proof.
  apply (virtualenv_rejects_pyvenv_options
           (minion true (Some "1.9") (exited 0 EmptyString))
           symlinks_options "virtualenv"
           eq_refl eq_refl eq_refl Symlinks eq_refl).
  - simpl. auto.
  - reflexivity.
Defined.

(** C4, as stated, fails where the two site options clash: with
    [virtualenv] and [upgrade] set, the call raises the mutual-exclusion
    error. *)
Lemma virtualenv_clash_reported_first :
  PyStr.contains "pyvenv" "virtualenv" = false /\
  opt_is_set both_site_upgrade Upgrade = true /\
  create (minion true (Some "1.9") (exited 0 EmptyString)) both_site_upgrade
  = ([Warn no_site_packages_deprecated],
     inl (CommandExecutionError mutually_exclusive [])) /\
  forall n, outcome (create (minion true (Some "1.9") (exited 0 EmptyString))
                       both_site_upgrade)
            <> inl (CommandExecutionError (not_supported n) [ArgStr "virtualenv"]).
Proof.
  repeat split; try reflexivity. intros n. discriminate.
Qed.

(** ** The assembled command *)

(** The shape of every command [create] assembles. *)
Lemma create_cmd_shape h o cmd :
  outcome (create_cmd h o) = inr cmd ->
  exists b backend,
    resolve_venv_bin h o = Some b /\ which h b = true /\
    is_True (no_site_packages o) && system_site_packages o = false /\
    cmd = b :: backend ++ common_flag_mapping o ++ [path o] /\
    ((PyStr.contains "pyvenv" b = false /\
      upgrade o = None /\ symlinks o = None /\
      exists version,
        outcome (virtualenv_version_info h b (runas o)) = inr version /\
        backend = legacy_flag_mapping version o)
     \/
     (PyStr.contains "pyvenv" b = true /\
      find (opt_is_set o) virtualenv_only = None /\
      backend = standard_flag_mapping o)).
Proof.
  intros H.
  destruct (create_cmd_inr h o cmd H) as (b & Hb & Hw & Hx & cmd' & Hc & ->).
  unfold backend_branch in Hc.
  destruct (PyStr.contains "pyvenv" b) eqn:Hpy; simpl in Hc.
  - apply pyvenv_branch_inr in Hc as (Hf & ->).
    exists b, (standard_flag_mapping o).
    do 3 (split; [assumption |]). split; [reflexivity |]. right. auto.
  - apply virtualenv_branch_inr in Hc as (Hu & Hs & version & Hv & ->).
    exists b, (legacy_flag_mapping version o).
    do 3 (split; [assumption |]). split; [reflexivity |]. left.
    do 3 (split; [assumption || reflexivity |]). now exists version.
Qed.

(** Where each legacy token comes from. *)
Lemma In_legacy_flag_mapping version o t :
  In t (legacy_flag_mapping version o) ->
  t = "--no-site-packages" \/
  (t = "--distribute" /\ distribute o = true /\
   tuple_ge version [1; 10]%Z = false) \/
  (exists c r, t = "--python=" ^^ String c r) \/
  (exists e, t = search_dir_token e) \/
  (t = "--never-download" /\ never_download o = Some true /\
   tuple_ge version [1; 10]%Z = false) \/
  (exists c r, t = "--prompt=" ^^ String c r).
Proof.
  unfold legacy_flag_mapping. rewrite !in_app_iff.
  intros [H | [H | [H | [H | [H | H]]]]].
  - destruct (is_True (no_site_packages o)); simpl in H; [| tauto].
    destruct H as [<- | []]. auto.
  - destruct (distribute o), (tuple_ge version [1; 10]%Z); simpl in H;
      try tauto. destruct H as [<- | []]. auto.
  - destruct (python o) as [[| c r] |]; simpl in H; try tauto.
    destruct H as [<- | []]. right; right; left. now exists c, r.
  - destruct (extra_search_dir o) as [d |]; simpl in H; [| tauto].
    apply in_map_iff in H as (e & <- & _). right; right; right; left.
    now exists e.
  - destruct (never_download o) as [[|] |], (tuple_ge version [1; 10]%Z);
      simpl in H; try tauto. destruct H as [<- | []]. auto 10.
  - destruct (prompt o) as [[| c r] |]; simpl in H; try tauto.
    destruct H as [<- | []]. do 5 right. now exists c, r.
Qed.

Lemma In_common_flag_mapping o t :
  In t (common_flag_mapping o) ->
  t = "--clear" \/ t = "--system-site-packages".
Proof.
  unfold common_flag_mapping.
  destruct (clear o), (system_site_packages o); simpl; intuition auto.
Qed.

Lemma In_standard_flag_mapping o t :
  In t (standard_flag_mapping o) -> t = "--upgrade" \/ t = "--symlinks".
Proof.
  unfold standard_flag_mapping.
  destruct (is_True (upgrade o)), (is_True (symlinks o)); simpl;
    intuition auto.
Qed.

(** A gated flag is not among the tokens of a tool at or past 1.10. *)
Lemma gated_flag_absent version o t :
  t = "--distribute" \/ t = "--never-download" ->
  tuple_ge version [1; 10]%Z = true ->
  ~ In t (legacy_flag_mapping version o ++ common_flag_mapping o).
Proof.
  intros Ht Hge Hin. apply in_app_iff in Hin as [Hin | Hin].
  - apply In_legacy_flag_mapping in Hin
      as [E | [(_ & _ & E) | [(c & r & E) | [(e & E) | [(_ & _ & E) | (c & r & E)]]]]];
      try congruence;
      destruct Ht as [-> | ->]; simpl in E; discriminate.
  - apply In_common_flag_mapping in Hin as [E | E];
      destruct Ht as [-> | ->]; discriminate.
Qed.

Lemma existsb_is_RunAll_notes version o :
  existsb is_RunAll (legacy_notes version o) = false.
Proof.
  unfold legacy_notes.
  destruct (distribute o), (is_True (never_download o)),
    (tuple_ge version [1; 10]%Z); reflexivity.
Qed.

Lemma existsb_is_RunAll_deprecation o :
  existsb is_RunAll (deprecation_trace o) = false.
Proof.
  unfold deprecation_trace. destruct (no_site_packages o); reflexivity.
Qed.

Lemma filter_search_dir_tokens (l : list string) :
  filter is_search_dir_token (map search_dir_token l) = map search_dir_token l.
Proof.
  induction l as [| e l IH]; [reflexivity |].
  cbn [map filter].
  replace (is_search_dir_token (search_dir_token e)) with true
    by reflexivity.
  now rewrite IH.
Qed.

(** Among the tokens between the binary and the path, the search
    directories are the only [--extra-search-dir=] tokens. *)
Lemma filter_search_dir_flags version o :
  filter is_search_dir_token
    (legacy_flag_mapping version o ++ common_flag_mapping o)
  = match extra_search_dir o with
    | Some d => map search_dir_token (search_dir_list d)
    | None => []
    end.
Proof.
  unfold legacy_flag_mapping, common_flag_mapping.
  rewrite !filter_app.
  destruct (extra_search_dir o) as [d |];
    rewrite ?filter_search_dir_tokens;
    destruct (is_True (no_site_packages o)), (distribute o),
      (tuple_ge version [1; 10]%Z), (python o) as [[| c r] |],
      (is_True (never_download o)), (prompt o) as [[| c' r'] |],
      (clear o), (system_site_packages o);
    simpl; rewrite ?app_nil_r; reflexivity.
Qed.

Lemma forallb_is_flag_legacy version o :
  forallb is_flag (legacy_flag_mapping version o) = true.
Proof.
  apply forallb_forall. intros t Hin.
  apply In_legacy_flag_mapping in Hin
    as [-> | [(-> & _) | [(c & r & ->) | [(e & ->) | [(-> & _) | (c & r & ->)]]]]];
    reflexivity.
Qed.

Lemma forallb_is_flag_standard o :
  forallb is_flag (standard_flag_mapping o) = true.
Proof.
  apply forallb_forall. intros t Hin.
  apply In_standard_flag_mapping in Hin as [-> | ->]; reflexivity.
Qed.

Lemma forallb_is_flag_common o :
  forallb is_flag (common_flag_mapping o) = true.
Proof.
  apply forallb_forall. intros t Hin.
  apply In_common_flag_mapping in Hin as [-> | ->]; reflexivity.
Qed.

(** ** The [virtualenv] backend *)

Section Virtualenv.

Variables (h : Host) (o : CreationOptions) (b : string).

(** The call reaches the version detection of the [virtualenv]
    branch: the binary resolves and is not [pyvenv], the site options
    do not clash, and no [pyvenv]-only option is set. *)
Hypothesis Hbin : resolve_venv_bin h o = Some b.
Hypothesis Hwhich : which h b = true.
Hypothesis Hsite :
  is_True (no_site_packages o) && system_site_packages o = false.
Hypothesis Hlegacy : PyStr.contains "pyvenv" b = false.
Hypothesis Hupgrade : upgrade o = None.
Hypothesis Hsymlinks : symlinks o = None.

Local Abbreviation probe := (virtualenv_version_info h b (runas o)).

Lemma virtualenv_create_cmd_inl (e : exn) :
  outcome probe = inl e ->
  create_cmd h o = (deprecation_trace o ++ trace probe, inl e).
Proof.
  intros He. rewrite (create_cmd_unfold h o b Hbin Hwhich Hsite).
  unfold backend_branch. rewrite Hlegacy. simpl.
  now rewrite (virtualenv_branch_version_inl h o b [b] e Hupgrade Hsymlinks He).
Qed.

Lemma virtualenv_create_cmd_inr (version : list Z) :
  outcome probe = inr version ->
  create_cmd h o
  = (deprecation_trace o ++ trace probe ++ legacy_notes version o,
     inr (b :: (legacy_flag_mapping version o ++ common_flag_mapping o)
            ++ [path o])).
Proof.
  intros Hv. rewrite (create_cmd_unfold h o b Hbin Hwhich Hsite).
  unfold backend_branch. rewrite Hlegacy. simpl.
  rewrite (virtualenv_branch_version_inr h o b [b] version
             Hupgrade Hsymlinks Hv).
  simpl. now rewrite <- app_assoc.
Qed.

Lemma virtualenv_create_inl (e : exn) :
  outcome probe = inl e ->
  create h o = (deprecation_trace o ++ trace probe, inl e).
Proof.
  intros He. rewrite create_unfold, (virtualenv_create_cmd_inl e He).
  reflexivity.
Qed.

Lemma virtualenv_create_outcome :
  outcome (create h o)
  = match outcome probe with
    | inl e => inl e
    | inr version =>
        inr (run_all h
               (PyStr.join " "
                  (b :: (legacy_flag_mapping version o
                         ++ common_flag_mapping o) ++ [path o]))
               (runas o))
    end.
Proof.
  destruct (outcome probe) as [e | version] eqn:Hp.
  - now rewrite (virtualenv_create_inl e Hp).
  - rewrite create_unfold, (virtualenv_create_cmd_inr version Hp).
    reflexivity.
Qed.

(** C2 (as amended): on the [virtualenv] backend the version is
    determined on every call that reaches the branch, whether or not
    [distribute] or [never_download] is set.  With an importable
    module no command is run for it; otherwise [<venv_bin> --version]
    is the first command run.  The version-output
    [CommandExecutionError] is raised exactly when the module is not
    importable and the probe's return code is above zero; version text
    that does not parse ends the call with a [ValueError]. *)
Theorem version_determined_on_every_call :
  let version_cmd := b ^^ " --version" in
  let r := run_all h version_cmd (runas o) in
  (forall v, virtualenv_module h = Some v ->
     existsb is_RunAll (trace (create_cmd h o)) = false /\
     forall e, outcome (version_info v) = inl e ->
       (exists literal, e = ValueError literal) /\
       create h o = (deprecation_trace o, inl e)) /\
  (virtualenv_module h = None ->
     (exists rest,
        trace (create h o)
        = deprecation_trace o ++ RunAll version_cmd (runas o) :: rest) /\
     ((retcode r <= 0)%Z ->
      forall e, outcome (version_info (PyStr.strip (stdout r))) = inl e ->
        (exists literal, e = ValueError literal) /\
        create h o
        = (deprecation_trace o ++ [RunAll version_cmd (runas o)], inl e))) /\
  (forall args,
     outcome (create h o)
     = inl (CommandExecutionError version_output_failed args)
     <-> virtualenv_module h = None /\ (retcode r > 0)%Z /\
         args = [ArgStr version_cmd; ArgRet r]).
Proof.
  intros version_cmd r. split; [| split].
  - intros v Hm.
    assert (Hp : probe = version_info v).
    { unfold probe, virtualenv_version_info. now rewrite Hm. }
    split.
    + destruct (outcome probe) as [e | version] eqn:Ho.
      * rewrite (virtualenv_create_cmd_inl e Ho). unfold trace at 1. simpl.
        rewrite Hp, version_info_trace, app_nil_r.
        apply existsb_is_RunAll_deprecation.
      * rewrite (virtualenv_create_cmd_inr version Ho).
        unfold trace at 1. simpl.
        rewrite Hp, version_info_trace. simpl.
        rewrite existsb_app, existsb_is_RunAll_deprecation,
          existsb_is_RunAll_notes. reflexivity.
    + intros e He. split; [now apply version_info_error in He |].
      rewrite <- Hp in He. rewrite (virtualenv_create_inl e He).
      now rewrite Hp, version_info_trace, app_nil_r.
  - intros Hm.
    pose proof (version_probe_unfold h b (runas o) Hm) as Hp.
    fold probe in Hp. cbv zeta in Hp. fold version_cmd r in Hp.
    split.
    + rewrite create_unfold.
      destruct (outcome probe) as [e | version] eqn:Ho.
      * rewrite (virtualenv_create_cmd_inl e Ho). simpl.
        rewrite Hp. simpl. now exists [].
      * rewrite (virtualenv_create_cmd_inr version Ho). simpl.
        rewrite Hp. simpl. rewrite <- app_assoc. simpl. eauto.
    + intros Hr e He. split; [now apply version_info_error in He |].
      assert (Ho : outcome probe = inl e).
      { rewrite Hp. simpl.
        destruct (retcode r >? 0)%Z eqn:Hc; [lia | exact He]. }
      rewrite (virtualenv_create_inl e Ho). now rewrite Hp.
  - intros args.
    rewrite virtualenv_create_outcome.
    destruct (virtualenv_module h) as [v |] eqn:Hm.
    + assert (Hp : probe = version_info v).
      { unfold probe, virtualenv_version_info. now rewrite Hm. }
      split; [| intros (Hn & _); discriminate].
      destruct (outcome probe) as [e | version] eqn:Ho; [| discriminate].
      rewrite Hp in Ho. apply version_info_error in Ho as (literal & ->).
      discriminate.
    + pose proof (version_probe_unfold h b (runas o) Hm) as Hp.
      fold probe in Hp. cbv zeta in Hp. fold version_cmd r in Hp.
      rewrite Hp. simpl.
      destruct (retcode r >? 0)%Z eqn:Hc.
      * split.
        -- intros [= <-]. repeat split; [lia].
        -- intros (_ & _ & ->). reflexivity.
      * split; [| intros (_ & Hr & _); lia].
        destruct (outcome (version_info (PyStr.strip (stdout r))))
          as [e | version] eqn:Ho; [| discriminate].
        apply version_info_error in Ho as (literal & ->). discriminate.
Qed.

(** C5: on the [virtualenv] backend with the version known, the
    command is the binary, the flag tokens and the path.  With
    [distribute] true and a version at or above (1, 10) no flag token
    is [--distribute] and the note is logged instead; below (1, 10)
    [--distribute] is a flag token.  The same holds of
    [never_download] and [--never-download]. *)
Theorem version_gates_obsolete_flags (version : list Z) :
  outcome (virtualenv_version_info h b (runas o)) = inr version ->
  exists flags,
    outcome (create_cmd h o) = inr (b :: flags ++ [path o]) /\
    (distribute o = true ->
     if tuple_ge version [1; 10]%Z
     then ~ In "--distribute" flags /\
          In (LogInfo distribute_deprecated) (trace (create_cmd h o)) /\
          (b <> "--distribute" -> path o <> "--distribute" ->
           ~ In "--distribute" (b :: flags ++ [path o]))
     else In "--distribute" flags) /\
    (never_download o = Some true ->
     if tuple_ge version [1; 10]%Z
     then ~ In "--never-download" flags /\
          In (LogInfo never_download_deprecated) (trace (create_cmd h o)) /\
          (b <> "--never-download" -> path o <> "--never-download" ->
           ~ In "--never-download" (b :: flags ++ [path o]))
     else In "--never-download" flags).
Proof.
  intros Hv. fold probe in Hv.
  exists (legacy_flag_mapping version o ++ common_flag_mapping o).
  rewrite (virtualenv_create_cmd_inr version Hv).
  split; [reflexivity |].
  unfold trace at 1 2. cbn [fst].
  split.
  - intros Hd. destruct (tuple_ge version [1; 10]%Z) eqn:Hge.
    + assert (Habs : ~ In "--distribute"
                       (legacy_flag_mapping version o ++ common_flag_mapping o))
        by (apply gated_flag_absent; auto).
      split; [exact Habs |]. split.
      * apply in_or_app. right. apply in_or_app. right.
        unfold legacy_notes. rewrite Hd, Hge. simpl. auto.
      * intros Hb Hp [E | Hin]; [congruence |].
        apply in_app_iff in Hin as [Hin | [E | []]]; [tauto | congruence].
    + apply in_or_app. left. unfold legacy_flag_mapping.
      apply in_or_app. right. apply in_or_app. left.
      rewrite Hd, Hge. simpl. auto.
  - intros Hd. destruct (tuple_ge version [1; 10]%Z) eqn:Hge.
    + assert (Habs : ~ In "--never-download"
                       (legacy_flag_mapping version o ++ common_flag_mapping o))
        by (apply gated_flag_absent; auto).
      split; [exact Habs |]. split.
      * apply in_or_app. right. apply in_or_app. right.
        unfold legacy_notes. rewrite Hd, Hge.
        apply in_or_app. right. simpl. auto.
      * intros Hb Hp [E | Hin]; [congruence |].
        apply in_app_iff in Hin as [Hin | [E | []]]; [tauto | congruence].
    + apply in_or_app. left. unfold legacy_flag_mapping.
      do 4 (apply in_or_app; right). apply in_or_app. left.
      rewrite Hd, Hge. simpl. auto.
Qed.

(** C6 (as amended): on the [virtualenv] backend with
    [extra_search_dir] given, the [--extra-search-dir=] flag tokens
    are, in order, one per entry: the entries of a list as given; for
    a single string with a comma, the comma-separated pieces, each
    trimmed; for a single string without a comma, that string as it
    is.  For [a, b,c] they are the tokens of [a], [b] and [c]. *)
Theorem search_dir_tokens_in_order (version : list Z) (d : search_dirs) :
  outcome (virtualenv_version_info h b (runas o)) = inr version ->
  extra_search_dir o = Some d ->
  exists flags,
    outcome (create_cmd h o) = inr (b :: flags ++ [path o]) /\
    (forall l, d = DirList l ->
       filter is_search_dir_token flags
       = map (fun e => "--extra-search-dir=" ^^ e) l) /\
    (forall s, d = DirString s -> PyStr.contains "," s = true ->
       filter is_search_dir_token flags
       = map (fun e => "--extra-search-dir=" ^^ PyStr.strip e)
           (PyStr.split "," s)) /\
    (forall s, d = DirString s -> PyStr.contains "," s = false ->
       filter is_search_dir_token flags = ["--extra-search-dir=" ^^ s]) /\
    (d = DirString "a, b,c" ->
       filter is_search_dir_token flags
       = ["--extra-search-dir=a"; "--extra-search-dir=b";
          "--extra-search-dir=c"]).
Proof.
  intros Hv Hd. fold probe in Hv.
  exists (legacy_flag_mapping version o ++ common_flag_mapping o).
  rewrite (virtualenv_create_cmd_inr version Hv).
  split; [reflexivity |].
  rewrite filter_search_dir_flags, Hd.
  repeat split.
  - intros l ->. reflexivity.
  - intros s -> Hc. unfold search_dir_list. rewrite Hc.
    now rewrite map_map.
  - intros s -> Hc. unfold search_dir_list. now rewrite Hc.
  - intros ->. reflexivity.
Qed.

(** C10: on the [virtualenv] backend, a single-string
    [extra_search_dir] without a comma gives exactly one
    [--extra-search-dir=] token, carrying the string unchanged; where
    trimming would change the string, the trimmed token is not
    emitted. *)
Theorem single_search_dir_kept_verbatim (version : list Z) (s : string) :
  outcome (virtualenv_version_info h b (runas o)) = inr version ->
  extra_search_dir o = Some (DirString s) ->
  PyStr.contains "," s = false ->
  exists flags,
    outcome (create_cmd h o) = inr (b :: flags ++ [path o]) /\
    search_dir_list (DirString s) = [s] /\
    filter is_search_dir_token flags = ["--extra-search-dir=" ^^ s] /\
    (PyStr.strip s <> s ->
     ~ In ("--extra-search-dir=" ^^ PyStr.strip s) flags).
Proof.
  intros Hv Hd Hc. fold probe in Hv.
  exists (legacy_flag_mapping version o ++ common_flag_mapping o).
  rewrite (virtualenv_create_cmd_inr version Hv).
  split; [reflexivity |].
  assert (Hl : search_dir_list (DirString s) = [s])
    by (unfold search_dir_list; now rewrite Hc).
  assert (Hf : filter is_search_dir_token
                 (legacy_flag_mapping version o ++ common_flag_mapping o)
               = ["--extra-search-dir=" ^^ s])
    by (rewrite filter_search_dir_flags, Hd, Hl; reflexivity).
  do 2 (split; [assumption |]).
  intros Hne Hin.
  assert (Hin' : In ("--extra-search-dir=" ^^ PyStr.strip s)
                   ["--extra-search-dir=" ^^ s]).
  { rewrite <- Hf. apply filter_In. split; [exact Hin | reflexivity]. }
  destruct Hin' as [E | []]. simpl in E. congruence.
Qed.

End Virtualenv.

Lemma version_determined_on_every_call_witness :
  outcome (create (minion true None (exited 1 EmptyString)) (defaults "/tmp/env"))
  = inl (CommandExecutionError version_output_failed
           [ArgStr "virtualenv --version"; ArgRet (exited 1 EmptyString)]).
Proof.
  destruct (version_determined_on_every_call
              (minion true None (exited 1 EmptyString)) (defaults "/tmp/env")
              "virtualenv" eq_refl eq_refl eq_refl eq_refl eq_refl eq_refl)
    as (_ & _ & H).
  apply H. repeat split.
Defined.

(** C2, as stated, fails on a call that sets neither [distribute] nor
    [never_download]: the probe is run all the same, and its failure
    ends the call. *)
Lemma probe_run_without_gated_options :
  distribute (defaults "/tmp/env") = false /\
  never_download (defaults "/tmp/env") = None /\
  PyStr.contains "pyvenv" "virtualenv" = false /\
  create (minion true None (exited 1 EmptyString)) (defaults "/tmp/env")
  = ([RunAll "virtualenv --version" None],
     inl (CommandExecutionError version_output_failed
            [ArgStr "virtualenv --version"; ArgRet (exited 1 EmptyString)])).
Proof.
  repeat split.
Qed.

Example unparsable_version_is_ValueError :
  create (minion true None (exited 0 "virtualenv 1.9")) (defaults "/tmp/env")
  = ([RunAll "virtualenv --version" None], inl (ValueError "virtualenv 1")).
Proof. reflexivity. Qed.

Lemma version_gates_obsolete_flags_witness :
  exists flags,
    outcome (create_cmd (minion true (Some "1.9") (exited 0 EmptyString))
               (distribute_options true (Some true)))
    = inr ("virtualenv" :: flags ++ ["/tmp/env"]) /\
    In "--distribute" flags /\ In "--never-download" flags.
Proof.
  destruct (version_gates_obsolete_flags
              (minion true (Some "1.9") (exited 0 EmptyString))
              (distribute_options true (Some true)) "virtualenv"
              eq_refl eq_refl eq_refl eq_refl eq_refl eq_refl
              [1; 9]%Z eq_refl)
    as (flags & Hc & Hd & Hn).
  exists flags. split; [exact Hc |].
  split; [exact (Hd eq_refl) | exact (Hn eq_refl)].
Defined.

Example distribute_suppressed_at_1_10 :
  create_cmd (minion true (Some "1.10") (exited 0 EmptyString))
    (distribute_options true None)
  = ([LogInfo distribute_deprecated], inr ["virtualenv"; "/tmp/env"]).
Proof. reflexivity. Qed.

Lemma search_dir_tokens_in_order_witness :
  exists flags,
    outcome (create_cmd (minion true (Some "1.9") (exited 0 EmptyString))
               (search_dir_options (DirString "a, b,c")))
    = inr ("virtualenv" :: flags ++ ["/tmp/env"]) /\
    filter is_search_dir_token flags
    = ["--extra-search-dir=a"; "--extra-search-dir=b"; "--extra-search-dir=c"].
Proof.
  destruct (search_dir_tokens_in_order
              (minion true (Some "1.9") (exited 0 EmptyString))
              (search_dir_options (DirString "a, b,c")) "virtualenv"
              eq_refl eq_refl eq_refl eq_refl eq_refl eq_refl
              [1; 9]%Z (DirString "a, b,c") eq_refl eq_refl)
    as (flags & Hc & _ & _ & _ & Hf).
  exists flags. split; [exact Hc | exact (Hf eq_refl)].
Defined.

(** C6, as stated, fails on a single string without a comma: it is not
    trimmed, so the token differs from the one the normalisation in the
    specification's words gives. *)
Lemma single_search_dir_not_trimmed :
  spec_search_dir_list (DirString " a") = ["a"] /\
  outcome (create_cmd (minion true (Some "1.9") (exited 0 EmptyString))
             (search_dir_options (DirString " a")))
  = inr ["virtualenv"; "--extra-search-dir= a"; "/tmp/env"] /\
  outcome (create_cmd (minion true (Some "1.9") (exited 0 EmptyString))
             (search_dir_options (DirString " a")))
  <> inr ("virtualenv"
          :: map search_dir_token (spec_search_dir_list (DirString " a"))
          ++ ["/tmp/env"]).
Proof.
  repeat split. discriminate.
Qed.

Lemma single_search_dir_kept_verbatim_witness :
  exists flags,
    outcome (create_cmd (minion true (Some "1.9") (exited 0 EmptyString))
               (search_dir_options (DirString " a ")))
    = inr ("virtualenv" :: flags ++ ["/tmp/env"]) /\
    filter is_search_dir_token flags = ["--extra-search-dir= a "] /\
    ~ In "--extra-search-dir=a" flags.
Proof.
  destruct (single_search_dir_kept_verbatim
              (minion true (Some "1.9") (exited 0 EmptyString))
              (search_dir_options (DirString " a ")) "virtualenv"
              eq_refl eq_refl eq_refl eq_refl eq_refl eq_refl
              [1; 9]%Z " a " eq_refl eq_refl eq_refl)
    as (flags & Hc & _ & Hf & Hn).
  exists flags. split; [exact Hc |]. split; [exact Hf |].
  apply Hn. discriminate.
Defined.

(** ** Both backends *)

Lemma count_occ_flags (flags : list string) (p : string) :
  forallb is_flag flags = true -> is_flag p = false ->
  count_occ string_dec flags p = 0.
Proof.
  intros Hf Hp. apply count_occ_not_In. intros Hin.
  rewrite forallb_forall in Hf. rewrite (Hf p Hin) in Hp. discriminate.
Qed.

(** C7: whenever [create] returns, the command it ran is the binary,
    then flag tokens only, then the path: the path is the last token,
    and among the appended tokens it occurs once when it does not
    itself look like a flag. *)
Theorem path_is_last_token (h : Host) (o : CreationOptions) (r : ExecResult) :
  outcome (create h o) = inr r ->
  exists b flags,
    outcome (create_cmd h o) = inr (b :: flags ++ [path o]) /\
    forallb is_flag flags = true /\
    last (b :: flags ++ [path o]) EmptyString = path o /\
    (is_flag (path o) = false ->
     count_occ string_dec (flags ++ [path o]) (path o) = 1) /\
    exists t,
      trace (create h o)
      = t ++ [RunAll (PyStr.join " " (b :: flags ++ [path o])) (runas o)].
Proof.
  intros Hr. rewrite create_unfold in Hr.
  destruct (outcome (create_cmd h o)) as [e | cmd] eqn:Hc; [discriminate |].
  destruct (create_cmd_shape h o cmd Hc)
    as (b & backend & _ & _ & _ & -> & Hbackend).
  exists b, (backend ++ common_flag_mapping o).
  assert (Hflags : forallb is_flag (backend ++ common_flag_mapping o) = true).
  { rewrite forallb_app, forallb_is_flag_common, andb_true_r.
    destruct Hbackend as [(_ & _ & _ & version & _ & ->) | (_ & _ & ->)].
    - apply forallb_is_flag_legacy.
    - apply forallb_is_flag_standard. }
  rewrite <- app_assoc. split; [reflexivity |].
  rewrite app_assoc. split; [exact Hflags |]. split.
  - change (b :: (backend ++ common_flag_mapping o) ++ [path o])
      with ((b :: backend ++ common_flag_mapping o) ++ [path o]).
    apply last_last.
  - split.
    + intros Hp. rewrite count_occ_app, (count_occ_flags _ _ Hflags Hp).
      simpl. destruct (string_dec (path o) (path o)); congruence.
    + rewrite create_unfold, Hc. simpl. rewrite <- app_assoc. eauto.
Qed.

Lemma path_is_last_token_witness :
  exists b flags,
    outcome (create_cmd (minion true None (exited 0 EmptyString))
               pyvenv_clear_options)
    = inr (b :: flags ++ ["/tmp/env"]) /\
    forallb is_flag flags = true /\
    last (b :: flags ++ ["/tmp/env"]) EmptyString = "/tmp/env".
Proof.
  destruct (path_is_last_token
              (minion true None (exited 0 EmptyString)) pyvenv_clear_options
              (exited 0 EmptyString) eq_refl)
    as (b & flags & Hc & Hf & Hl & _).
  exists b, flags. auto.
Defined.

(** C8: every assembled command is the binary, then the backend's
    tokens in their order, then [--clear] and [--system-site-packages]
    in that order, each exactly when its option is true, then the path;
    with both common options true the command ends with [--clear],
    [--system-site-packages] and the path. *)
Theorem command_token_order (h : Host) (o : CreationOptions)
    (cmd : list string) :
  outcome (create_cmd h o) = inr cmd ->
  exists b backend,
    resolve_venv_bin h o = Some b /\
    cmd = [b] ++ backend
          ++ (if clear o then ["--clear"] else [])
          ++ (if system_site_packages o
              then ["--system-site-packages"] else [])
          ++ [path o] /\
    (if PyStr.contains "pyvenv" b
     then backend = standard_flag_mapping o
     else exists version,
         outcome (virtualenv_version_info h b (runas o)) = inr version /\
         backend = legacy_flag_mapping version o) /\
    (clear o = true -> system_site_packages o = true ->
     exists front,
       cmd = front ++ ["--clear"; "--system-site-packages"; path o]).
Proof.
  intros Hc.
  destruct (create_cmd_shape h o cmd Hc)
    as (b & backend & Hb & _ & _ & -> & Hbackend).
  exists b, backend. split; [exact Hb |].
  unfold common_flag_mapping. rewrite <- !app_assoc.
  split; [reflexivity |]. split.
  - destruct Hbackend as [(-> & _ & _ & Hv) | (-> & _ & ->)]; auto.
  - intros -> ->. exists (b :: backend). simpl. reflexivity.
Qed.

Lemma command_token_order_witness :
  exists front,
    outcome (create_cmd (minion true None (exited 0 EmptyString))
               pyvenv_clear_options)
    = inr (front ++ ["--clear"; "--system-site-packages"; "/tmp/env"]).
Proof.
  destruct (command_token_order
              (minion true None (exited 0 EmptyString)) pyvenv_clear_options
              ["pyvenv"; "--clear"; "--system-site-packages"; "/tmp/env"]
              eq_refl)
    as (b & backend & _ & _ & _ & H).
  destruct (H eq_refl eq_refl) as (front & Hf).
  exists front. simpl in Hf. rewrite <- Hf. reflexivity.
Defined.

(** C9 (as amended): the result of the creation command is returned
    as it is, whatever its return code; a version probe whose return
    code is above zero raises the version-output
    [CommandExecutionError], while a return code of zero or below,
    a negative one included, is not taken as a failure of the probe:
    where its output parses, the call goes on and returns. *)
Theorem creation_result_is_data (h : Host) (o : CreationOptions) :
  (forall cmd,
     outcome (create_cmd h o) = inr cmd ->
     create h o
     = (trace (create_cmd h o) ++ [RunAll (PyStr.join " " cmd) (runas o)],
        inr (run_all h (PyStr.join " " cmd) (runas o)))) /\
  (forall b,
     resolve_venv_bin h o = Some b -> which h b = true ->
     is_True (no_site_packages o) && system_site_packages o = false ->
     PyStr.contains "pyvenv" b = false ->
     upgrade o = None -> symlinks o = None ->
     virtualenv_module h = None ->
     let r := run_all h (b ^^ " --version") (runas o) in
     ((retcode r > 0)%Z ->
      outcome (create h o)
      = inl (CommandExecutionError version_output_failed
               [ArgStr (b ^^ " --version"); ArgRet r])) /\
     ((retcode r <= 0)%Z ->
      forall version,
        outcome (version_info (PyStr.strip (stdout r))) = inr version ->
        exists result, outcome (create h o) = inr result)).
Proof.
  split.
  - intros cmd Hc. rewrite create_unfold, Hc. reflexivity.
  - intros b Hb Hw Hx Hl Hu Hs Hm r.
    rewrite (virtualenv_create_outcome h o b Hb Hw Hx Hl Hu Hs).
    rewrite (version_probe_unfold h b (runas o) Hm). cbv zeta. fold r.
    simpl. split.
    + intros Hr. destruct (retcode r >? 0)%Z eqn:Hc; [reflexivity | lia].
    + intros Hr version Hv.
      destruct (retcode r >? 0)%Z eqn:Hc; [lia |].
      rewrite Hv. eauto.
Qed.

Lemma creation_result_is_data_witness :
  create (minion_probing (exited 0 "1.9") (exited 2 EmptyString))
    (defaults "/tmp/env")
  = ([RunAll "virtualenv --version" None; RunAll "virtualenv /tmp/env" None],
     inr (exited 2 EmptyString)) /\
  outcome (create (minion_probing (exited 3 "1.9") (exited 0 EmptyString))
             (defaults "/tmp/env"))
  = inl (CommandExecutionError version_output_failed
           [ArgStr "virtualenv --version"; ArgRet (exited 3 "1.9")]) /\
  exists result,
    outcome (create (minion_probing (exited (-15) "1.9")
                       (exited 0 EmptyString))
               (defaults "/tmp/env"))
    = inr result.
Proof.
  split; [| split].
  - apply (proj1 (creation_result_is_data
                    (minion_probing (exited 0 "1.9") (exited 2 EmptyString))
                    (defaults "/tmp/env"))
             ["virtualenv"; "/tmp/env"] eq_refl).
  - apply (proj1 (proj2 (creation_result_is_data
                    (minion_probing (exited 3 "1.9") (exited 0 EmptyString))
                    (defaults "/tmp/env"))
             "virtualenv" eq_refl eq_refl eq_refl eq_refl eq_refl eq_refl
             eq_refl)).
    reflexivity.
  - apply (proj2 (proj2 (creation_result_is_data
                    (minion_probing (exited (-15) "1.9")
                       (exited 0 EmptyString))
                    (defaults "/tmp/env"))
             "virtualenv" eq_refl eq_refl eq_refl eq_refl eq_refl eq_refl
             eq_refl)) with (version := [1; 9]%Z).
    + simpl. lia.
    + reflexivity.
Defined.

(** C9, as stated, fails on a probe that ends with a negative return
    code, as a tool killed by a signal does: the code is not zero, yet
    the call is not stopped; the output is parsed and the creation
    command is run. *)
Lemma negative_probe_code_not_fatal :
  retcode (run_all (minion_probing (exited (-1) "1.9") (exited 0 EmptyString))
             "virtualenv --version" None) <> 0%Z /\
  create (minion_probing (exited (-1) "1.9") (exited 0 EmptyString))
    (defaults "/tmp/env")
  = ([RunAll "virtualenv --version" None; RunAll "virtualenv /tmp/env" None],
     inr (exited 0 EmptyString)) /\
  forall args,
    outcome (create (minion_probing (exited (-1) "1.9") (exited 0 EmptyString))
               (defaults "/tmp/env"))
    <> inl (CommandExecutionError version_output_failed args).
Proof.
  split; [simpl; lia |]. split; [reflexivity |].
  intros args. discriminate.
Qed.

(** * Further properties of [create] *)

(** ** Every call is one of seven cases *)

Lemma find_pyvenv_only o :
  find (opt_is_set o) pyvenv_only = None <->
  upgrade o = None /\ symlinks o = None.
Proof.
  unfold pyvenv_only. simpl.
  destruct (upgrade o), (symlinks o); simpl; split;
    try discriminate; try tauto; intros [? ?]; discriminate.
Qed.

Lemma pyvenv_branch_accepts o b cmd :
  find (opt_is_set o) virtualenv_only = None ->
  pyvenv_branch o b cmd = ([], inr (cmd ++ standard_flag_mapping o)).
Proof.
  unfold pyvenv_branch, standard_flag_mapping. simpl.
  destruct (no_site_packages o); [discriminate |].
  destruct (python o); [discriminate |].
  destruct (extra_search_dir o); [discriminate |].
  destruct (never_download o); [discriminate |].
  destruct (prompt o); [discriminate |]. simpl. intros _.
  destruct (upgrade o) as [[|] |], (symlinks o) as [[|] |]; simpl;
    rewrite <- ?app_assoc, ?app_nil_r; reflexivity.
Qed.

Lemma create_cmd_resolution h o : resolution h o (create_cmd h o).
Proof.
  destruct (resolve_venv_bin h o) as [b |] eqn:Hb.
  2:{ unfold create_cmd. rewrite Hb. now apply res_no_binary. }
  destruct (which h b) eqn:Hw.
  2:{ unfold create_cmd. rewrite Hb. simpl. rewrite Hw.
      now apply res_not_found. }
  destruct (is_True (no_site_packages o) && system_site_packages o) eqn:Hx.
  { apply andb_prop in Hx as [Hn Hs].
    destruct (no_site_packages o) as [[|] |] eqn:Hn'; try discriminate.
    unfold create_cmd. rewrite Hb. simpl. rewrite Hw, Hn', Hs. simpl.
    now apply res_clash with b. }
  rewrite (create_cmd_unfold h o b Hb Hw Hx). unfold backend_branch.
  destruct (PyStr.contains "pyvenv" b) eqn:Hpy; simpl.
  - destruct (find (opt_is_set o) virtualenv_only) as [n |] eqn:Hf.
    + rewrite (pyvenv_branch_rejects o b [b] n Hf). simpl.
      rewrite app_nil_r. apply res_rejected; auto.
      unfold foreign_options. now rewrite Hpy.
    + rewrite (pyvenv_branch_accepts o b [b] Hf). simpl.
      rewrite app_nil_r, app_assoc. now apply res_pyvenv.
  - destruct (find (opt_is_set o) pyvenv_only) as [n |] eqn:Hf.
    + rewrite (virtualenv_branch_rejects h o b [b] n Hf). simpl.
      rewrite app_nil_r. apply res_rejected; auto.
      unfold foreign_options. now rewrite Hpy.
    + destruct (proj1 (find_pyvenv_only o) Hf) as [Hu Hs].
      destruct (outcome (virtualenv_version_info h b (runas o)))
        as [e | version] eqn:Hv.
      * rewrite (virtualenv_branch_version_inl h o b [b] e Hu Hs Hv).
        simpl. now apply res_version_failed.
      * rewrite (virtualenv_branch_version_inr h o b [b] version Hu Hs Hv).
        simpl. rewrite (app_assoc (legacy_flag_mapping version o)).
        now apply res_virtualenv.
Qed.

Lemma resolves_true h o :
  resolves h o = true <->
  exists b, resolve_venv_bin h o = Some b /\ which h b = true.
Proof.
  unfold resolves. destruct (resolve_venv_bin h o) as [b |].
  - split; [intros Hw; now exists b | intros (b' & [= <-] & Hw); exact Hw].
  - split; [discriminate | intros (b' & Hb & _); discriminate].
Qed.

Lemma version_probe_trace h b u :
  trace (virtualenv_version_info h b u)
  = match virtualenv_module h with
    | Some _ => []
    | None => [RunAll (b ^^ " --version") u]
    end.
Proof.
  destruct (virtualenv_module h) as [v |] eqn:Hm.
  - unfold virtualenv_version_info. rewrite Hm. apply version_info_trace.
  - now rewrite (version_probe_unfold h b u Hm).
Qed.

Lemma ints_error (l : list string) (e : exn) :
  outcome (ints l) = inl e ->
  exists i, In i l /\ PyStr.int i = None /\ e = ValueError i.
Proof.
  induction l as [| i l IH]; simpl; [discriminate |].
  destruct (PyStr.int i) eqn:Hi.
  - destruct (ints l) as [t [e' | ns]]; simpl in *; [| discriminate].
    intros [= <-]. destruct (IH eq_refl) as (j & Hj & Hn & He).
    exists j. auto.
  - simpl. intros [= <-]. exists i. auto.
Qed.

(** The errors the version detection can end with. *)
Lemma version_probe_error h b u e :
  outcome (virtualenv_version_info h b u) = inl e ->
  (exists i, PyStr.int i = None /\ e = ValueError i) \/
  (exists args, e = CommandExecutionError version_output_failed args).
Proof.
  unfold virtualenv_version_info, version_info.
  destruct (virtualenv_module h) as [v |].
  - intros He. apply ints_error in He as (i & _ & Hn & ->). left. eauto.
  - unfold cmd_run_all. simpl.
    destruct (retcode _ >? 0)%Z; simpl.
    + intros [= <-]. right. eauto.
    + destruct (ints _) as [t [e' | ns]] eqn:Hi; simpl; [| discriminate].
      intros [= <-].
      assert (He : outcome (ints (PyStr.split "."
                    (PyStr.first (PyStr.split "rc"
                       (PyStr.strip (stdout (run_all h (b ^^ " --version") u)))))))
                   = inl e') by now rewrite Hi.
      apply ints_error in He as (i & _ & Hn & ->). left. eauto.
Qed.

Lemma filter_is_Warn_deprecation o :
  filter is_Warn (deprecation_trace o) = deprecation_trace o.
Proof.
  unfold deprecation_trace. destruct (no_site_packages o); reflexivity.
Qed.

Lemma filter_is_Warn_notes version o :
  filter is_Warn (legacy_notes version o) = [].
Proof.
  unfold legacy_notes.
  destruct (distribute o), (is_True (never_download o)),
    (tuple_ge version [1; 10]%Z); reflexivity.
Qed.

Lemma filter_is_Warn_probe h b u :
  filter is_Warn (trace (virtualenv_version_info h b u)) = [].
Proof.
  rewrite version_probe_trace. destruct (virtualenv_module h); reflexivity.
Qed.

Lemma filter_is_RunAll_deprecation o :
  filter is_RunAll (deprecation_trace o) = [].
Proof.
  unfold deprecation_trace. destruct (no_site_packages o); reflexivity.
Qed.

Lemma filter_is_RunAll_notes version o :
  filter is_RunAll (legacy_notes version o) = [].
Proof.
  unfold legacy_notes.
  destruct (distribute o), (is_True (never_download o)),
    (tuple_ge version [1; 10]%Z); reflexivity.
Qed.

Lemma filter_is_RunAll_probe h b u :
  filter is_RunAll (trace (virtualenv_version_info h b u))
  = trace (virtualenv_version_info h b u).
Proof.
  rewrite version_probe_trace. destruct (virtualenv_module h); reflexivity.
Qed.

Lemma outcome_pair (A : Type) (t : list event) (r : exn + A) :
  outcome (t, r) = r.
Proof. reflexivity. Qed.

Lemma trace_pair (A : Type) (t : list event) (r : exn + A) :
  trace (t, r) = t.
Proof. reflexivity. Qed.

(** Case analysis on a call of [create]. *)
Ltac create_cases h o :=
  rewrite ?create_unfold;
  generalize (create_cmd_resolution h o);
  generalize (create_cmd h o);
  let m := fresh "m" in
  let R := fresh "R" in
  intros m R; destruct R;
  rewrite ?outcome_pair, ?trace_pair; cbv beta iota;
  rewrite ?outcome_pair, ?trace_pair.

(** ** The binary check and the deprecation warning *)

(** X1: [create] raises [CommandNotFoundError] exactly when the binary
    it works with is missing or does not resolve, and then nothing has
    happened: no warning, no command. *)
Theorem binary_checked_first (h : Host) (o : CreationOptions) :
  ((exists c, outcome (create h o) = inl (CommandNotFoundError c))
   <-> resolves h o = false) /\
  (resolves h o = false -> create h o
     = ([], inl (CommandNotFoundError (resolve_venv_bin h o)))).
Proof.
  assert (Hres : forall b, resolve_venv_bin h o = Some b ->
                           which h b = true -> resolves h o = true)
    by (intros b Hb Hw; apply resolves_true; eauto).
  create_cases h o.
  - unfold resolves. rewrite H. split; [split; eauto | reflexivity].
  - unfold resolves. rewrite H, H0. split; [split; eauto | reflexivity].
  - rewrite (Hres b H H0).
    split; [split; [intros (c & Hc) |]; discriminate | discriminate].
  - rewrite (Hres b H H0).
    split; [split; [intros (c & Hc) |]; discriminate | discriminate].
  - rewrite (Hres b H H0).
    split; [split; [intros (c & Hc) |]; discriminate | discriminate].
  - rewrite (Hres b H H0).
    split; [split; [intros (c & Hc) |]; [| discriminate] | discriminate].
    apply version_probe_error in H4 as [(i & _ & ->) | (args & ->)];
      discriminate.
  - rewrite (Hres b H H0).
    split; [split; [intros (c & Hc) |]; discriminate | discriminate].
Qed.

(** X2: the deprecation warning is issued once, as the first effect,
    exactly when the binary resolves and [no_site_packages] is given,
    as [True] or as [False], on either backend and whether or not the
    call then fails; [create] issues no other warning. *)
Theorem deprecation_warning_exactly (h : Host) (o : CreationOptions) :
  filter is_Warn (trace (create h o))
  = (if resolves h o then deprecation_trace o else []) /\
  (resolves h o = true ->
   exists rest, trace (create h o) = deprecation_trace o ++ rest).
Proof.
  assert (Hres : forall b, resolve_venv_bin h o = Some b ->
                           which h b = true -> resolves h o = true)
    by (intros b Hb Hw; apply resolves_true; eauto).
  create_cases h o.
  - unfold resolves. rewrite H. split; [reflexivity | discriminate].
  - unfold resolves. rewrite H, H0. split; [reflexivity | discriminate].
  - rewrite (Hres b H H0). unfold deprecation_trace. rewrite H1.
    split; [reflexivity | intros _; now exists []].
  - rewrite (Hres b H H0), filter_is_Warn_deprecation.
    split; [reflexivity | intros _; exists []; now rewrite app_nil_r].
  - rewrite (Hres b H H0), filter_app, filter_is_Warn_deprecation.
    split; [now rewrite app_nil_r | intros _; eauto].
  - rewrite (Hres b H H0), filter_app, filter_is_Warn_deprecation,
      filter_is_Warn_probe.
    split; [now rewrite app_nil_r | intros _; eauto].
  - rewrite (Hres b H H0), !filter_app, filter_is_Warn_deprecation,
      filter_is_Warn_probe, filter_is_Warn_notes.
    split; [simpl; now rewrite !app_nil_r | intros _].
    rewrite <- !app_assoc. eauto.
Qed.

(** ** The commands a call runs *)

(** X3: every command [create] runs, the version probe as well as the
    creation command, is run as the [runas] user of the call. *)
Theorem commands_run_as_runas (h : Host) (o : CreationOptions)
    (c : string) (u : option string) :
  In (RunAll c u) (trace (create h o)) -> u = runas o.
Proof.
  assert (Hd : forall t, In (RunAll c u) (deprecation_trace o ++ t) ->
                         In (RunAll c u) t).
  { intros t Hin. apply in_app_iff in Hin as [Hin | Hin]; [| exact Hin].
    unfold deprecation_trace in Hin.
    destruct (no_site_packages o); simpl in Hin; [| tauto].
    destruct Hin as [Hin | []]. discriminate. }
  assert (Hp : forall b, In (RunAll c u)
                           (trace (virtualenv_version_info h b (runas o))) ->
                         u = runas o).
  { intros b Hin. rewrite version_probe_trace in Hin.
    destruct (virtualenv_module h); simpl in Hin; [tauto |].
    destruct Hin as [[= _ <-] | []]. reflexivity. }
  assert (Hn : forall version, ~ In (RunAll c u) (legacy_notes version o)).
  { intros version Hin.
    assert (Hf : In (RunAll c u)
                   (filter is_RunAll (legacy_notes version o)))
      by (apply filter_In; auto).
    now rewrite filter_is_RunAll_notes in Hf. }
  create_cases h o; simpl; try tauto.
  - intros [Hin | []]. discriminate.
  - intros Hin. rewrite <- (app_nil_r (deprecation_trace o)) in Hin.
    apply Hd in Hin. destruct Hin.
  - intros Hin. apply Hd in Hin. destruct Hin as [[= _ <-] | []].
    reflexivity.
  - intros Hin. apply Hd in Hin. now apply Hp in Hin.
  - intros Hin. rewrite <- !app_assoc in Hin. apply Hd in Hin.
    apply in_app_iff in Hin as [Hin | Hin]; [now apply Hp in Hin |].
    apply in_app_iff in Hin as [Hin | Hin]; [now apply Hn in Hin |].
    destruct Hin as [[= _ <-] | []]. reflexivity.
Qed.

Lemma commands_run_as_runas_witness :
  Some "deploy" = runas python_options.
Proof.
  apply (commands_run_as_runas
           (minion true None (exited 0 "1.9")) python_options
           "virtualenv --version" (Some "deploy")).
  simpl. auto.
Defined.

(** X4: a call that fails has not run the creation command: it has run
    no command at all, or only [<venv_bin> --version], and that only on
    the [virtualenv] backend without an importable module. *)
Theorem failure_runs_no_creation_command (h : Host) (o : CreationOptions)
    (e : exn) :
  outcome (create h o) = inl e ->
  filter is_RunAll (trace (create h o)) = [] \/
  exists b,
    resolve_venv_bin h o = Some b /\ PyStr.contains "pyvenv" b = false /\
    virtualenv_module h = None /\
    trace (create h o)
    = deprecation_trace o ++ [RunAll (b ^^ " --version") (runas o)].
Proof.
  create_cases h o; try discriminate; intros _; auto.
  - left. apply filter_is_RunAll_deprecation.
  - rewrite filter_app, filter_is_RunAll_deprecation, filter_is_RunAll_probe,
      version_probe_trace.
    destruct (virtualenv_module h) as [v |] eqn:Hm; [left; reflexivity |].
    right. exists b. auto.
Qed.

Lemma failure_runs_no_creation_command_witness :
  filter is_RunAll
    (trace (create (minion true None (exited 0 "1.x")) python_options)) = [] \/
  exists b,
    resolve_venv_bin (minion true None (exited 0 "1.x")) python_options
    = Some b /\
    PyStr.contains "pyvenv" b = false /\
    virtualenv_module (minion true None (exited 0 "1.x")) = None /\
    trace (create (minion true None (exited 0 "1.x")) python_options)
    = deprecation_trace python_options
      ++ [RunAll (b ^^ " --version") (runas python_options)].
Proof.
  apply (failure_runs_no_creation_command
           (minion true None (exited 0 "1.x")) python_options
           (ValueError "x")).
  reflexivity.
Defined.

(** X5: a call that returns has run the creation command last and at
    most one command before it, the version probe; so a call runs at
    most two commands. *)
Theorem success_runs_creation_command_last (h : Host) (o : CreationOptions)
    (r : ExecResult) :
  outcome (create h o) = inr r ->
  exists cmd probes,
    outcome (create_cmd h o) = inr cmd /\
    r = run_all h (PyStr.join " " cmd) (runas o) /\
    filter is_RunAll (trace (create h o))
    = probes ++ [RunAll (PyStr.join " " cmd) (runas o)] /\
    (probes = [] \/
     exists b, resolve_venv_bin h o = Some b /\
               probes = [RunAll (b ^^ " --version") (runas o)]).
Proof.
  intros Hr. rewrite create_unfold in Hr. rewrite create_unfold.
  generalize (create_cmd_resolution h o). revert Hr.
  destruct (create_cmd h o) as [t [e | cmd]]; simpl; [discriminate |].
  intros [= <-] R.
  exists cmd. rewrite filter_app. simpl.
  exists (filter is_RunAll t). do 3 (split; [reflexivity |]).
  inversion R; subst.
  - left. apply filter_is_RunAll_deprecation.
  - rewrite !filter_app, filter_is_RunAll_deprecation,
      filter_is_RunAll_notes, filter_is_RunAll_probe, version_probe_trace.
    destruct (virtualenv_module h); [now left |].
    right. exists b. auto.
Qed.

Lemma success_runs_creation_command_last_witness :
  exists cmd probes,
    outcome (create_cmd (minion true None (exited 0 "1.9")) python_options)
    = inr cmd /\
    exited 0 "1.9"
    = run_all (minion true None (exited 0 "1.9")) (PyStr.join " " cmd)
        (runas python_options) /\
    filter is_RunAll
      (trace (create (minion true None (exited 0 "1.9")) python_options))
    = probes ++ [RunAll (PyStr.join " " cmd) (runas python_options)] /\
    (probes = [] \/
     exists b,
       resolve_venv_bin (minion true None (exited 0 "1.9")) python_options
       = Some b /\
       probes = [RunAll (b ^^ " --version") (runas python_options)]).
Proof.
  apply (success_runs_creation_command_last
           (minion true None (exited 0 "1.9")) python_options
           (exited 0 "1.9")).
  reflexivity.
Defined.

(** X6: on the [pyvenv] backend no version is looked for: the only
    command a call can run is the creation command, also on a host
    where the [virtualenv] module cannot be imported. *)
Theorem pyvenv_never_probes (h : Host) (o : CreationOptions) (b : string) :
  resolve_venv_bin h o = Some b ->
  PyStr.contains "pyvenv" b = true ->
  filter is_RunAll (trace (create_cmd h o)) = [] /\
  filter is_LogInfo (trace (create h o)) = [].
Proof.
  intros Hb Hpy.
  assert (Hd : filter is_LogInfo (deprecation_trace o) = []).
  { unfold deprecation_trace. destruct (no_site_packages o); reflexivity. }
  rewrite create_unfold.
  generalize (create_cmd_resolution h o).
  generalize (create_cmd h o). intros m R.
  destruct R; rewrite ?outcome_pair, ?trace_pair; cbv beta iota;
    rewrite ?outcome_pair, ?trace_pair;
    try (rewrite Hb in *; match goal with
                          | E : Some _ = Some _ |- _ => injection E as ->
                          end);
    try congruence; try (split; reflexivity).
  - rewrite filter_is_RunAll_deprecation, Hd. auto.
  - rewrite filter_app, filter_is_RunAll_deprecation, Hd. auto.
Qed.

Lemma pyvenv_never_probes_witness :
  filter is_RunAll
    (trace (create_cmd (minion true None (exited 1 EmptyString))
              pyvenv_symlinks_options)) = [] /\
  filter is_LogInfo
    (trace (create (minion true None (exited 1 EmptyString))
              pyvenv_symlinks_options)) = [].
Proof.
  apply (pyvenv_never_probes
           (minion true None (exited 1 EmptyString))
           pyvenv_symlinks_options "pyvenv");
    reflexivity.
Defined.

(** ** When a call returns *)

Lemma find_virtualenv_only o :
  find (opt_is_set o) virtualenv_only = None <->
  no_site_packages o = None /\ python o = None /\
  extra_search_dir o = None /\ never_download o = None /\ prompt o = None.
Proof.
  unfold virtualenv_only. simpl.
  destruct (no_site_packages o), (python o), (extra_search_dir o),
    (never_download o), (prompt o); simpl; split;
    try discriminate; try tauto;
    intros (? & ? & ? & ? & ?); discriminate.
Qed.

(** X7: with a resolving [pyvenv] binary, [create] returns exactly when
    none of [no_site_packages], [python], [extra_search_dir],
    [never_download] and [prompt] is given; [upgrade] and [symlinks] may
    be given as [False].  It then runs one command: the binary,
    [--upgrade] and [--symlinks] where [True], the common flags and the
    path. *)
Theorem pyvenv_returns_iff (h : Host) (o : CreationOptions) (b : string) :
  resolve_venv_bin h o = Some b -> which h b = true ->
  PyStr.contains "pyvenv" b = true ->
  ((exists r, outcome (create h o) = inr r)
   <-> (no_site_packages o = None /\ python o = None /\
        extra_search_dir o = None /\ never_download o = None /\
        prompt o = None)) /\
  (find (opt_is_set o) virtualenv_only = None ->
   let line := PyStr.join " "
                 (b :: (standard_flag_mapping o ++ common_flag_mapping o)
                    ++ [path o]) in
   create h o = ([RunAll line (runas o)], inr (run_all h line (runas o)))).
Proof.
  intros Hb Hw Hpy. rewrite <- find_virtualenv_only.
  rewrite create_unfold.
  generalize (create_cmd_resolution h o).
  generalize (create_cmd h o). intros m R.
  destruct R; rewrite ?outcome_pair, ?trace_pair; cbv beta iota;
    rewrite ?outcome_pair, ?trace_pair;
    try (rewrite Hb in *; match goal with
                          | E : Some _ = Some _ |- _ => injection E as ->
                          end);
    try congruence.
  - assert (Hf : find (opt_is_set o) virtualenv_only <> None).
    { intros Hf. apply find_virtualenv_only in Hf as (Hn & _). congruence. }
    split; [split; [intros (r & Hr); discriminate | tauto] | tauto].
  - unfold foreign_options in *. rewrite Hpy in *.
    split; [split; [intros (r & Hr); discriminate | congruence] | congruence].
  - split; [split; eauto |]. intros _.
    unfold deprecation_trace.
    apply find_virtualenv_only in H3 as (-> & _). reflexivity.
Qed.

Lemma pyvenv_returns_iff_witness :
  create (minion true None (exited 1 "failed")) pyvenv_symlinks_options
  = ([RunAll "pyvenv --symlinks /tmp/env" (Some "deploy")],
     inr (exited 1 "failed")).
Proof.
  apply (proj2 (pyvenv_returns_iff
                  (minion true None (exited 1 "failed"))
                  pyvenv_symlinks_options "pyvenv"
                  eq_refl eq_refl eq_refl)).
  reflexivity.
Defined.

(** X8: with a resolving binary that is not [pyvenv], [create] returns
    exactly when the two site options do not clash, [upgrade] and
    [symlinks] are both absent, and the version is determined. *)
Theorem virtualenv_returns_iff (h : Host) (o : CreationOptions) (b : string) :
  resolve_venv_bin h o = Some b -> which h b = true ->
  PyStr.contains "pyvenv" b = false ->
  ((exists r, outcome (create h o) = inr r)
   <-> (is_True (no_site_packages o) && system_site_packages o = false /\
        upgrade o = None /\ symlinks o = None /\
        exists version,
          outcome (virtualenv_version_info h b (runas o)) = inr version)).
Proof.
  intros Hb Hw Hpy. rewrite create_unfold.
  generalize (create_cmd_resolution h o).
  generalize (create_cmd h o). intros m R.
  destruct R; rewrite ?outcome_pair, ?trace_pair; cbv beta iota;
    rewrite ?outcome_pair, ?trace_pair;
    try (rewrite Hb in *; match goal with
                          | E : Some _ = Some _ |- _ => injection E as ->
                          end);
    try congruence.
  - split; [intros (r & Hr); discriminate |].
    rewrite H1, H2. intros (Hx & _). discriminate.
  - unfold foreign_options in *. rewrite Hpy in *.
    split; [intros (r & Hr); discriminate |].
    intros (_ & Hu & Hs & _).
    assert (Hf : find (opt_is_set o) pyvenv_only = None)
      by (apply find_pyvenv_only; auto).
    congruence.
  - split; [intros (r & Hr); discriminate |].
    intros (_ & _ & _ & version & Hv). congruence.
  - apply find_pyvenv_only in H3 as (Hu & Hs).
    split; [intros _ | eauto]. eauto 10.
Qed.

Lemma virtualenv_returns_iff_witness :
  exists r,
    outcome (create (minion true None (exited 0 "1.9")) python_options)
    = inr r.
Proof.
  apply (virtualenv_returns_iff
           (minion true None (exited 0 "1.9")) python_options "virtualenv"
           eq_refl eq_refl eq_refl).
  repeat split. exists [1; 9]%Z. reflexivity.
Defined.

(** ** What an assembled command never holds *)

(** X9: no assembled command asks for both site behaviours: between the
    binary and the path, [--no-site-packages] and
    [--system-site-packages] never occur together. *)
Theorem never_both_site_flags (h : Host) (o : CreationOptions)
    (cmd : list string) :
  outcome (create_cmd h o) = inr cmd ->
  exists b flags,
    cmd = b :: flags ++ [path o] /\
    ~ (In "--no-site-packages" flags /\ In "--system-site-packages" flags).
Proof.
  intros Hc.
  destruct (create_cmd_shape h o cmd Hc)
    as (b & backend & _ & _ & Hx & -> & Hbackend).
  exists b, (backend ++ common_flag_mapping o).
  rewrite <- app_assoc. split; [reflexivity |].
  intros [Hn Hs].
  assert (Hcommon : ~ In "--no-site-packages" (common_flag_mapping o)).
  { intros Hin. apply In_common_flag_mapping in Hin as [E | E]; discriminate. }
  apply in_app_iff in Hn as [Hn | Hn]; [| tauto].
  destruct Hbackend as [(_ & _ & _ & version & _ & ->) | (_ & _ & ->)].
  - assert (Hnsp : is_True (no_site_packages o) = true).
    { unfold legacy_flag_mapping in Hn.
      destruct (is_True (no_site_packages o)); [reflexivity |].
      simpl in Hn. exfalso.
      apply in_app_iff in Hn as [Hn | Hn].
      - destruct (distribute o && negb (tuple_ge version [1; 10]%Z));
          simpl in Hn; intuition discriminate.
      - apply in_app_iff in Hn as [Hn | Hn].
        + destruct (python o) as [[| c r] |]; simpl in Hn;
            intuition discriminate.
        + apply in_app_iff in Hn as [Hn | Hn].
          * destruct (extra_search_dir o) as [d |]; simpl in Hn; [| tauto].
            apply in_map_iff in Hn as (e & E & _). discriminate.
          * apply in_app_iff in Hn as [Hn | Hn].
            -- destruct (is_True (never_download o)
                         && negb (tuple_ge version [1; 10]%Z));
                 simpl in Hn; intuition discriminate.
            -- destruct (prompt o) as [[| c r] |]; simpl in Hn;
                 intuition discriminate. }
    rewrite Hnsp in Hx. simpl in Hx.
    apply in_app_iff in Hs as [Hs | Hs].
    + apply In_legacy_flag_mapping in Hs
        as [E | [(E & _) | [(c & r & E) | [(e & E) | [(E & _) | (c & r & E)]]]]];
        discriminate.
    + unfold common_flag_mapping in Hs. rewrite Hx in Hs.
      destruct (clear o); simpl in Hs; intuition discriminate.
  - apply In_standard_flag_mapping in Hn as [E | E]; discriminate.
Qed.

Lemma never_both_site_flags_witness :
  exists b flags,
    ["virtualenv"; "--python=python2.7"; "--system-site-packages"; "/tmp/env"]
    = b :: flags ++ [path python_options] /\
    ~ (In "--no-site-packages" flags /\ In "--system-site-packages" flags).
Proof.
  apply (never_both_site_flags
           (minion true (Some "1.9") (exited 0 EmptyString)) python_options).
  reflexivity.
Defined.

(** X10: the two flag families never mix.  A command for [pyvenv]
    holds no flag besides [--upgrade], [--symlinks], [--clear] and
    [--system-site-packages]; a command for [virtualenv] holds neither
    [--upgrade] nor [--symlinks]. *)
Theorem flag_families_never_mix (h : Host) (o : CreationOptions)
    (cmd : list string) :
  outcome (create_cmd h o) = inr cmd ->
  exists b flags,
    resolve_venv_bin h o = Some b /\
    cmd = b :: flags ++ [path o] /\
    if PyStr.contains "pyvenv" b
    then forall t, In t flags ->
           In t ["--upgrade"; "--symlinks"; "--clear";
                 "--system-site-packages"]
    else ~ In "--upgrade" flags /\ ~ In "--symlinks" flags.
Proof.
  intros Hc.
  destruct (create_cmd_shape h o cmd Hc)
    as (b & backend & Hb & _ & _ & -> & Hbackend).
  exists b, (backend ++ common_flag_mapping o).
  rewrite <- app_assoc. do 2 (split; [reflexivity || assumption |]).
  destruct Hbackend as [(-> & _ & _ & version & _ & ->) | (-> & _ & ->)].
  - split; intros Hin; apply in_app_iff in Hin as [Hin | Hin];
      try (apply In_common_flag_mapping in Hin as [E | E]; discriminate);
      apply In_legacy_flag_mapping in Hin
        as [E | [(E & _) | [(c & r & E) | [(e & E) | [(E & _) | (c & r & E)]]]]];
      discriminate.
  - intros t Hin. apply in_app_iff in Hin as [Hin | Hin].
    + apply In_standard_flag_mapping in Hin as [-> | ->]; simpl; auto.
    + apply In_common_flag_mapping in Hin as [-> | ->]; simpl; auto.
Qed.

Lemma flag_families_never_mix_witness :
  exists b flags,
    resolve_venv_bin (minion true None (exited 0 EmptyString))
      pyvenv_symlinks_options = Some b /\
    ["pyvenv"; "--symlinks"; "/tmp/env"]
    = b :: flags ++ [path pyvenv_symlinks_options] /\
    if PyStr.contains "pyvenv" b
    then forall t, In t flags ->
           In t ["--upgrade"; "--symlinks"; "--clear";
                 "--system-site-packages"]
    else ~ In "--upgrade" flags /\ ~ In "--symlinks" flags.
Proof.
  apply (flag_families_never_mix
           (minion true None (exited 0 EmptyString)) pyvenv_symlinks_options).
  reflexivity.
Defined.

(** X11: a [ValueError] leaves [create] only from the version
    detection of the [virtualenv] backend, never on [pyvenv], and the
    literal it carries is a dot-separated piece of the version text,
    taken before the first [rc], that [int] rejects. *)
Theorem value_error_only_from_version (h : Host) (o : CreationOptions)
    (literal : string) :
  outcome (create h o) = inl (ValueError literal) ->
  PyStr.int literal = None /\
  exists b text,
    resolve_venv_bin h o = Some b /\ PyStr.contains "pyvenv" b = false /\
    text = match virtualenv_module h with
           | Some version => version
           | None => PyStr.strip
                       (stdout (run_all h (b ^^ " --version") (runas o)))
           end /\
    In literal (PyStr.split "." (PyStr.first (PyStr.split "rc" text))).
Proof.
  create_cases h o; try discriminate.
  intros [= ->].
  unfold virtualenv_version_info, version_info, cmd_run_all in H4.
  destruct (virtualenv_module h) as [v |].
  - apply ints_error in H4 as (i & Hin & Hn & [= ->]).
    split; [exact Hn |]. exists b, v. auto.
  - simpl in H4.
    destruct (retcode _ >? 0)%Z; simpl in H4; [discriminate |].
    destruct (ints _) as [t [e' | ns]] eqn:Hi; simpl in H4; [| discriminate].
    injection H4 as ->.
    assert (He : outcome (ints (PyStr.split "."
                  (PyStr.first (PyStr.split "rc"
                     (PyStr.strip
                        (stdout (run_all h (b ^^ " --version") (runas o))))))))
                 = inl (ValueError literal)) by now rewrite Hi.
    apply ints_error in He as (i & Hin & Hn & [= ->]).
    split; [exact Hn |]. eexists b, _. eauto.
Qed.

Lemma value_error_only_from_version_witness :
  PyStr.int "x" = None /\
  exists b text,
    resolve_venv_bin (minion true None (exited 0 "1.x")) python_options
    = Some b /\
    PyStr.contains "pyvenv" b = false /\
    text = match virtualenv_module (minion true None (exited 0 "1.x")) with
           | Some version => version
           | None => PyStr.strip
                       (stdout (run_all (minion true None (exited 0 "1.x"))
                                  (b ^^ " --version") (runas python_options)))
           end /\
    In "x" (PyStr.split "." (PyStr.first (PyStr.split "rc" text))).
Proof.
  apply (value_error_only_from_version
           (minion true None (exited 0 "1.x")) python_options "x").
  reflexivity.
Defined.

(** ** Version text *)

Lemma split_char_length (c : ascii) (s : string) :
  length (PyStr.split (String c EmptyString) s) = S (count_char c s).
Proof.
  unfold PyStr.split.
  induction s as [| a s IH]; [reflexivity |].
  cbn [PyStr.split_go PyStr.startswith count_char String.length].
  rewrite andb_true_r.
  destruct (Ascii.eqb c a); cbn [Nat.sub].
  - cbn [length]. now rewrite IH.
  - destruct (PyStr.split_go (String c EmptyString) 0 s) as [| x l];
      [discriminate |].
    exact IH.
Qed.

Lemma ints_length (l : list string) (ns : list Z) :
  outcome (ints l) = inr ns -> length ns = length l.
Proof.
  revert ns. induction l as [| i l IH]; intros ns; simpl.
  - now intros [= <-].
  - destruct (PyStr.int i); [| discriminate].
    destruct (ints l) as [t [e | ms]]; simpl in *; [discriminate |].
    intros [= <-]. simpl. now rewrite (IH ms eq_refl).
Qed.

(** X12: a version that parses is never the empty tuple: it has one
    component more than there are dots before the first [rc]. *)
Theorem version_info_components (text : string) (version : list Z) :
  outcome (version_info text) = inr version ->
  length version
  = S (count_char "." (PyStr.first (PyStr.split "rc" text))) /\
  version <> [].
Proof.
  unfold version_info. intros Hv.
  apply ints_length in Hv.
  rewrite (split_char_length "." (PyStr.first (PyStr.split "rc" text))) in Hv.
  split; [exact Hv |]. intros ->. discriminate.
Qed.

Lemma version_info_components_witness :
  length [1; 10; 1]%Z
  = S (count_char "." (PyStr.first (PyStr.split "rc" "1.10.1rc2"))) /\
  [1; 10; 1]%Z <> [].
Proof.
  apply (version_info_components "1.10.1rc2" [1; 10; 1]%Z). reflexivity.
Defined.

Lemma split_absent (sep : string) (s : string) :
  PyStr.contains sep s = false -> PyStr.split_go sep 0 s = [s].
Proof.
  induction s as [| a s IH]; [reflexivity |].
  cbn [PyStr.contains PyStr.split_go].
  destruct (PyStr.startswith sep (String a s)); [discriminate |].
  intros Hc. now rewrite (IH Hc).
Qed.

Lemma first_split_rc (t rest : string) :
  PyStr.contains "rc" t = false ->
  PyStr.first (PyStr.split "rc" (t ^^ "rc" ^^ rest)) = t.
Proof.
  unfold PyStr.split, PyStr.first.
  change ("rc" ^^ rest) with (String "r" (String "c" rest)).
  set (tail := String "c" rest).
  induction t as [| a t IH]; [reflexivity |].
  intros Hc. cbn [PyStr.contains] in Hc.
  destruct (PyStr.startswith "rc" (String a t)) eqn:Hs; [discriminate |].
  specialize (IH Hc).
  assert (Hs' : PyStr.startswith "rc" (String a (t ^^ String "r" tail))
                = false).
  { cbn [PyStr.startswith] in *.
    destruct (Ascii.eqb "r" a); [| reflexivity].
    destruct t as [| c t']; [reflexivity |].
    cbn [String.append]. exact Hs. }
  change (String a t ^^ String "r" tail)
    with (String a (t ^^ String "r" tail)).
  cbn [PyStr.split_go]. rewrite Hs'.
  destruct (PyStr.split_go "rc" 0 (t ^^ String "r" tail)) as [| x l];
    simpl in *; now subst.
Qed.

(** X13: a release-candidate suffix does not change the version: what
    follows the first [rc] is dropped before the text is parsed. *)
Theorem version_info_drops_rc_suffix (text suffix : string) :
  PyStr.contains "rc" text = false ->
  version_info (text ^^ "rc" ^^ suffix) = version_info text.
Proof.
  intros Hc. unfold version_info.
  rewrite (first_split_rc text suffix Hc).
  replace (PyStr.split "rc" text) with [text]
    by (symmetry; exact (split_absent "rc" text Hc)).
  reflexivity.
Qed.

Lemma version_info_drops_rc_suffix_witness :
  version_info ("1.10" ^^ "rc" ^^ "2.dev") = version_info "1.10".
Proof.
  apply (version_info_drops_rc_suffix "1.10" "2.dev"). reflexivity.
Defined.

(** ** The version gate *)

Lemma tuple_ge_trans (a : list Z) : forall b c,
  tuple_ge a b = true -> tuple_ge b c = true -> tuple_ge a c = true.
Proof.
  induction a as [| x a IH]; intros [| y b] [| z c]; simpl;
    try reflexivity; try discriminate.
  destruct (Z.eqb_spec x y), (Z.eqb_spec y z), (Z.eqb_spec x z);
    subst; try lia; intros H1 H2; eauto; lia.
Qed.

Lemma legacy_flag_mapping_monotone (o : CreationOptions)
    (older newer : list Z) (t : string) :
  tuple_ge newer older = true ->
  In t (legacy_flag_mapping newer o) -> In t (legacy_flag_mapping older o).
Proof.
  intros Hge.
  destruct (tuple_ge older [1; 10]%Z) eqn:Ho.
  - pose proof (tuple_ge_trans newer older [1; 10]%Z Hge Ho) as Hn.
    unfold legacy_flag_mapping. now rewrite Ho, Hn.
  - unfold legacy_flag_mapping. rewrite Ho.
    rewrite !in_app_iff.
    destruct (tuple_ge newer [1; 10]%Z), (distribute o),
      (is_True (never_download o)); simpl; tauto.
Qed.

(** X14: the gate is monotone in the version: for the same call, the
    tokens the [virtualenv] branch gives on a host with a newer tool are
    among those it gives on a host with an older one, so a flag that is
    dropped stays dropped for every newer version. *)
Theorem newer_version_emits_fewer_flags (h_old h_new : Host)
    (o : CreationOptions) (b : string) (cmd : list string)
    (older newer : list Z) (cmd_old cmd_new : list string) :
  outcome (virtualenv_version_info h_old b (runas o)) = inr older ->
  outcome (virtualenv_version_info h_new b (runas o)) = inr newer ->
  tuple_ge newer older = true ->
  outcome (virtualenv_branch h_old o b cmd) = inr cmd_old ->
  outcome (virtualenv_branch h_new o b cmd) = inr cmd_new ->
  forall t, In t cmd_new -> In t cmd_old.
Proof.
  intros Ho Hn Hge Hco Hcn t.
  apply virtualenv_branch_inr in Hco as (_ & _ & v & Hv & ->).
  rewrite Ho in Hv. injection Hv as <-.
  apply virtualenv_branch_inr in Hcn as (_ & _ & v & Hv & ->).
  rewrite Hn in Hv. injection Hv as <-.
  rewrite !in_app_iff. intros [Hin | Hin]; [now left | right].
  now apply (legacy_flag_mapping_monotone o older newer).
Qed.

Lemma newer_version_emits_fewer_flags_witness :
  In "virtualenv" ["virtualenv"; "--distribute"; "--never-download"].
Proof.
  apply (newer_version_emits_fewer_flags
           (minion true (Some "1.9") (exited 0 EmptyString))
           (minion true (Some "1.10.1") (exited 0 EmptyString))
           (distribute_options true (Some true)) "virtualenv" ["virtualenv"]
           [1; 9]%Z [1; 10; 1]%Z
           ["virtualenv"; "--distribute"; "--never-download"] ["virtualenv"]
           eq_refl eq_refl eq_refl eq_refl eq_refl "virtualenv").
  simpl. auto.
Defined.

(** ** Search directories, interpreter and prompt *)

Lemma count_char_absent (c : ascii) (s : string) :
  PyStr.contains (String c EmptyString) s = false -> count_char c s = 0.
Proof.
  induction s as [| a s IH]; [reflexivity |].
  cbn [PyStr.contains PyStr.startswith count_char].
  rewrite andb_true_r.
  destruct (Ascii.eqb c a); [discriminate |]. exact IH.
Qed.

(** The command of a call on the [virtualenv] backend. *)
Lemma virtualenv_cmd_shape h o b cmd :
  outcome (create_cmd h o) = inr cmd ->
  resolve_venv_bin h o = Some b ->
  PyStr.contains "pyvenv" b = false ->
  exists version,
    outcome (virtualenv_version_info h b (runas o)) = inr version /\
    cmd = b :: (legacy_flag_mapping version o ++ common_flag_mapping o)
            ++ [path o].
Proof.
  intros Hc Hb Hpy.
  destruct (create_cmd_shape h o cmd Hc)
    as (b' & backend & Hb' & _ & _ & -> & Hbackend).
  rewrite Hb in Hb'. injection Hb' as <-.
  destruct Hbackend as [(_ & _ & _ & version & Hv & ->) | (Hpy' & _)];
    [| congruence].
  exists version. rewrite <- app_assoc. auto.
Qed.

(** X15: a single-string [extra_search_dir] gives one
    [--extra-search-dir=] token more than it has commas: empty pieces
    are kept, so the empty string gives one token and [a,,b] three. *)
Theorem search_dir_token_count (h : Host) (o : CreationOptions)
    (b s : string) (cmd : list string) :
  outcome (create_cmd h o) = inr cmd ->
  resolve_venv_bin h o = Some b ->
  PyStr.contains "pyvenv" b = false ->
  extra_search_dir o = Some (DirString s) ->
  exists flags,
    cmd = b :: flags ++ [path o] /\
    length (filter is_search_dir_token flags) = S (count_char "," s).
Proof.
  intros Hc Hb Hpy Hd.
  destruct (virtualenv_cmd_shape h o b cmd Hc Hb Hpy) as (version & _ & ->).
  exists (legacy_flag_mapping version o ++ common_flag_mapping o).
  split; [reflexivity |].
  rewrite filter_search_dir_flags, Hd, length_map.
  unfold search_dir_list.
  destruct (PyStr.contains "," s) eqn:Hcomma.
  - rewrite length_map. apply (split_char_length "," s).
  - now rewrite (count_char_absent "," s Hcomma).
Qed.

Lemma search_dir_token_count_witness :
  exists flags,
    ["virtualenv"; "--extra-search-dir=a"; "--extra-search-dir=";
     "--extra-search-dir=b"; "/tmp/env"]
    = "virtualenv" :: flags ++ [path (search_dir_options (DirString "a,,b"))] /\
    length (filter is_search_dir_token flags) = S (count_char "," "a,,b").
Proof.
  apply (search_dir_token_count
           (minion true (Some "1.9") (exited 0 EmptyString))
           (search_dir_options (DirString "a,,b")) "virtualenv" "a,,b");
    reflexivity.
Defined.

Lemma lstrip_head (s : string) :
  match PyStr.lstrip s with
  | String c _ => PyStr.isspace c = false
  | EmptyString => True
  end.
Proof.
  induction s as [| a s IH]; simpl; [exact I |].
  destruct (PyStr.isspace a) eqn:Ha; [exact IH | exact Ha].
Qed.

Lemma rstrip_cons (a : ascii) (s : string) :
  PyStr.rstrip (String a s)
  = match PyStr.rstrip s with
    | EmptyString =>
        if PyStr.isspace a then EmptyString else String a EmptyString
    | r => String a r
    end.
Proof. reflexivity. Qed.

Lemma rstrip_idempotent (s : string) :
  PyStr.rstrip (PyStr.rstrip s) = PyStr.rstrip s.
Proof.
  induction s as [| a s IH]; [reflexivity |].
  rewrite rstrip_cons.
  destruct (PyStr.rstrip s) as [| d r] eqn:Hr.
  - destruct (PyStr.isspace a) eqn:Ha; [reflexivity |].
    rewrite rstrip_cons. simpl. now rewrite Ha.
  - rewrite rstrip_cons, IH. reflexivity.
Qed.

Lemma lstrip_rstrip (s : string) :
  PyStr.lstrip s = s -> PyStr.lstrip (PyStr.rstrip s) = PyStr.rstrip s.
Proof.
  destruct s as [| a s]; [reflexivity |].
  intros Hl. pose proof (lstrip_head (String a s)) as Hh.
  rewrite Hl in Hh. rewrite rstrip_cons.
  destruct (PyStr.rstrip s); rewrite ?Hh; cbn [PyStr.lstrip];
    now rewrite Hh.
Qed.

Lemma lstrip_idempotent (s : string) :
  PyStr.lstrip (PyStr.lstrip s) = PyStr.lstrip s.
Proof.
  pose proof (lstrip_head s) as Hh.
  destruct (PyStr.lstrip s) as [| c r]; [reflexivity |].
  cbn [PyStr.lstrip]. now rewrite Hh.
Qed.

(** X16: where a single-string [extra_search_dir] holds a comma, no
    entry keeps white space at either end: stripping an entry again, on
    the left or on the right, changes nothing. *)
Theorem split_search_dirs_are_trimmed (s e : string) :
  PyStr.contains "," s = true ->
  In e (search_dir_list (DirString s)) ->
  PyStr.lstrip e = e /\ PyStr.rstrip e = e /\ PyStr.strip e = e.
Proof.
  intros Hc Hin. unfold search_dir_list in Hin. rewrite Hc in Hin.
  apply in_map_iff in Hin as (x & <- & _).
  unfold PyStr.strip.
  assert (Hl : PyStr.lstrip (PyStr.rstrip (PyStr.lstrip x))
               = PyStr.rstrip (PyStr.lstrip x))
    by (apply lstrip_rstrip, lstrip_idempotent).
  split; [exact Hl |]. split; [apply rstrip_idempotent |].
  rewrite Hl. apply rstrip_idempotent.
Qed.

Lemma split_search_dirs_are_trimmed_witness :
  PyStr.lstrip "b c" = "b c" /\ PyStr.rstrip "b c" = "b c" /\
  PyStr.strip "b c" = "b c".
Proof.
  apply (split_search_dirs_are_trimmed "a ,  b c  " "b c").
  - reflexivity.
  - simpl. auto.
Defined.

Lemma filter_python_search_dirs (l : list string) :
  filter is_python_token (map search_dir_token l) = [].
Proof.
  induction l as [| e l IH]; [reflexivity |]. cbn [map filter].
  replace (is_python_token (search_dir_token e)) with false by reflexivity.
  exact IH.
Qed.

Lemma filter_prompt_search_dirs (l : list string) :
  filter is_prompt_token (map search_dir_token l) = [].
Proof.
  induction l as [| e l IH]; [reflexivity |]. cbn [map filter].
  replace (is_prompt_token (search_dir_token e)) with false by reflexivity.
  exact IH.
Qed.

(** X17: on the [virtualenv] backend a non-empty [python] gives exactly
    one [--python=] token and a non-empty [prompt] exactly one
    [--prompt=] token; an empty string, like [None], gives none. *)
Theorem interpreter_and_prompt_tokens (h : Host) (o : CreationOptions)
    (b : string) (cmd : list string) :
  outcome (create_cmd h o) = inr cmd ->
  resolve_venv_bin h o = Some b ->
  PyStr.contains "pyvenv" b = false ->
  exists flags,
    cmd = b :: flags ++ [path o] /\
    filter is_python_token flags
    = match python o with
      | Some (String c r) => ["--python=" ^^ String c r]
      | _ => []
      end /\
    filter is_prompt_token flags
    = match prompt o with
      | Some (String c r) => ["--prompt=" ^^ String c r]
      | _ => []
      end.
Proof.
  intros Hc Hb Hpy.
  destruct (virtualenv_cmd_shape h o b cmd Hc Hb Hpy) as (version & _ & ->).
  exists (legacy_flag_mapping version o ++ common_flag_mapping o).
  split; [reflexivity |].
  unfold legacy_flag_mapping, common_flag_mapping.
  rewrite !filter_app.
  split;
    (destruct (extra_search_dir o) as [d |];
     rewrite ?filter_python_search_dirs, ?filter_prompt_search_dirs;
     destruct (is_True (no_site_packages o)), (distribute o),
       (tuple_ge version [1; 10]%Z), (python o) as [[| c r] |],
       (is_True (never_download o)), (prompt o) as [[| c' r'] |],
       (clear o), (system_site_packages o);
     reflexivity).
Qed.

Lemma interpreter_and_prompt_tokens_witness :
  exists flags,
    ["virtualenv"; "--python=python2.7"; "--system-site-packages"; "/tmp/env"]
    = "virtualenv" :: flags ++ [path python_options] /\
    filter is_python_token flags = ["--python=python2.7"] /\
    filter is_prompt_token flags = [].
Proof.
  apply (interpreter_and_prompt_tokens
           (minion true (Some "1.9") (exited 0 EmptyString))
           python_options "virtualenv");
    reflexivity.
Defined.

(** X18: where neither [distribute] nor [never_download] asks for a
    flag, the version does not show in the result: the command holds
    only [--no-site-packages], the interpreter, the search directories,
    the prompt and the common flags, and no note is logged. *)
Theorem version_matters_only_for_gated_flags (h : Host)
    (o : CreationOptions) (b : string) (cmd : list string) :
  outcome (create_cmd h o) = inr cmd ->
  resolve_venv_bin h o = Some b ->
  PyStr.contains "pyvenv" b = false ->
  distribute o = false ->
  never_download o <> Some true ->
  cmd = [b]
        ++ (if is_True (no_site_packages o)
            then ["--no-site-packages"] else [])
        ++ value_token "--python=" (python o)
        ++ match extra_search_dir o with
           | Some d => map search_dir_token (search_dir_list d)
           | None => []
           end
        ++ value_token "--prompt=" (prompt o)
        ++ common_flag_mapping o ++ [path o] /\
  filter is_LogInfo (trace (create_cmd h o)) = [].
Proof.
  intros Hc Hb Hpy Hd Hn.
  assert (Hn' : is_True (never_download o) = false)
    by (revert Hn; destruct (never_download o) as [[|] |]; simpl;
        congruence).
  destruct (virtualenv_cmd_shape h o b cmd Hc Hb Hpy) as (version & Hv & ->).
  split.
  - unfold legacy_flag_mapping. rewrite Hd, Hn'. simpl.
    now rewrite <- !app_assoc.
  - revert Hc. generalize (create_cmd_resolution h o).
    generalize (create_cmd h o). intros m R.
    destruct R; rewrite ?outcome_pair, ?trace_pair; try discriminate;
      try (rewrite Hb in *; match goal with
                            | E : Some _ = Some _ |- _ => injection E as ->
                            end);
      try congruence.
    intros _. rewrite !filter_app, version_probe_trace.
    unfold deprecation_trace, legacy_notes. rewrite Hd, Hn'.
    destruct (no_site_packages o), (virtualenv_module h); reflexivity.
Qed.

Lemma version_matters_only_for_gated_flags_witness :
  ["virtualenv"; "--python=python2.7"; "--system-site-packages"; "/tmp/env"]
  = ["virtualenv"]
    ++ (if is_True (no_site_packages python_options)
        then ["--no-site-packages"] else [])
    ++ value_token "--python=" (python python_options)
    ++ match extra_search_dir python_options with
       | Some d => map search_dir_token (search_dir_list d)
       | None => []
       end
    ++ value_token "--prompt=" (prompt python_options)
    ++ common_flag_mapping python_options ++ [path python_options] /\
  filter is_LogInfo
    (trace (create_cmd (minion true (Some "12.0") (exited 0 EmptyString))
              python_options)) = [].
Proof.
  apply (version_matters_only_for_gated_flags
           (minion true (Some "12.0") (exited 0 EmptyString))
           python_options "virtualenv");
    try reflexivity.
  discriminate.
Defined.

(** ** Backend selection and the command line *)

Lemma startswith_append (p s : string) : PyStr.startswith p (p ^^ s) = true.
Proof.
  induction p as [| a p IH]; [reflexivity |].
  simpl. now rewrite Ascii.eqb_refl, IH.
Qed.

Lemma startswith_inv (p : string) : forall s,
  PyStr.startswith p s = true -> exists post, s = p ^^ post.
Proof.
  induction p as [| a p IH]; intros s; simpl.
  - intros _. now exists s.
  - destruct s as [| c s]; [discriminate |].
    intros H. apply andb_prop in H as [Ha Hp].
    apply Ascii.eqb_eq in Ha as ->.
    destruct (IH s Hp) as (post & ->). now exists post.
Qed.

Lemma contains_startswith (sub s : string) :
  PyStr.startswith sub s = true -> PyStr.contains sub s = true.
Proof.
  intros H. destruct s; cbn [PyStr.contains]; now rewrite H.
Qed.

Lemma contains_iff (sub s : string) :
  PyStr.contains sub s = true <-> exists pre post, s = pre ^^ sub ^^ post.
Proof.
  split.
  - induction s as [| a s IH]; cbn [PyStr.contains].
    + destruct (PyStr.startswith sub EmptyString) eqn:Hs; [| discriminate].
      intros _. apply startswith_inv in Hs as (post & Hp).
      exists EmptyString, post. exact Hp.
    + destruct (PyStr.startswith sub (String a s)) eqn:Hs.
      * intros _. apply startswith_inv in Hs as (post & Hp).
        exists EmptyString, post. exact Hp.
      * intros Hc. destruct (IH Hc) as (pre & post & ->).
        now exists (String a pre), post.
  - intros (pre & post & ->).
    induction pre as [| a pre IH].
    + change (EmptyString ^^ sub ^^ post) with (sub ^^ post).
      apply contains_startswith, startswith_append.
    + change (String a pre ^^ sub ^^ post)
        with (String a (pre ^^ sub ^^ post)).
      cbn [PyStr.contains]. rewrite IH.
      now destruct (PyStr.startswith sub _).
Qed.

(** X19: the backend is chosen by a substring test on the whole binary
    string: [create] takes the [pyvenv] branch exactly for the binaries
    that hold [pyvenv] somewhere, in the file name or in a directory of
    the path, and the [virtualenv] branch for all others. *)
Theorem backend_chosen_by_substring (h : Host) (o : CreationOptions)
    (b : string) :
  ((exists pre post, b = pre ^^ "pyvenv" ^^ post) ->
   backend_branch h o b = pyvenv_branch o b [b]) /\
  (~ (exists pre post, b = pre ^^ "pyvenv" ^^ post) ->
   backend_branch h o b = virtualenv_branch h o b [b]).
Proof.
  unfold backend_branch. split; intros H.
  - apply contains_iff in H. now rewrite H.
  - destruct (PyStr.contains "pyvenv" b) eqn:Hc; [| reflexivity].
    apply contains_iff in Hc. contradiction.
Qed.

Lemma backend_chosen_by_substring_witness :
  backend_branch (minion true None (exited 0 EmptyString))
    pyvenv_symlinks_options "/opt/pyvenv-tools/bin/virtualenv"
  = pyvenv_branch pyvenv_symlinks_options "/opt/pyvenv-tools/bin/virtualenv"
      ["/opt/pyvenv-tools/bin/virtualenv"].
Proof.
  apply (proj1 (backend_chosen_by_substring
                  (minion true None (exited 0 EmptyString))
                  pyvenv_symlinks_options "/opt/pyvenv-tools/bin/virtualenv")).
  exists "/opt/", "-tools/bin/virtualenv". reflexivity.
Defined.

Lemma string_append_assoc (a b c : string) : (a ^^ b) ^^ c = a ^^ b ^^ c.
Proof.
  induction a as [| x a IH]; [reflexivity |]. simpl. now rewrite IH.
Qed.

Lemma join_binary_flags_path (flags : list string) : forall b p,
  PyStr.join " " (b :: flags ++ [p])
  = b ^^ fold_right (fun f acc => " " ^^ f ^^ acc) EmptyString flags
      ^^ " " ^^ p.
Proof.
  unfold PyStr.join.
  induction flags as [| f flags IH]; intros b p; [reflexivity |].
  change (String.concat " " (b :: (f :: flags) ++ [p]))
    with (b ^^ " " ^^ String.concat " " (f :: flags ++ [p])).
  rewrite IH. cbn [fold_right].
  now rewrite !string_append_assoc.
Qed.

(** X20: the command line given to [cmd.run_all] is the binary at the
    start and, at the end, a space and the path as it was passed;
    nothing is quoted or escaped on the way. *)
Theorem command_line_starts_and_ends (h : Host) (o : CreationOptions)
    (r : ExecResult) :
  outcome (create h o) = inr r ->
  exists b middle,
    resolve_venv_bin h o = Some b /\
    r = run_all h (b ^^ middle ^^ " " ^^ path o) (runas o) /\
    exists before,
      trace (create h o)
      = before ++ [RunAll (b ^^ middle ^^ " " ^^ path o) (runas o)].
Proof.
  intros Hr. rewrite create_unfold in Hr. rewrite create_unfold.
  destruct (outcome (create_cmd h o)) as [e | cmd] eqn:Hc; [discriminate |].
  simpl in Hr. injection Hr as <-.
  destruct (create_cmd_shape h o cmd Hc)
    as (b & backend & Hb & _ & _ & -> & _).
  exists b,
    (fold_right (fun f acc => " " ^^ f ^^ acc) EmptyString
       (backend ++ common_flag_mapping o)).
  rewrite app_assoc, join_binary_flags_path.
  split; [exact Hb |]. split; [reflexivity |]. simpl. eauto.
Qed.

Lemma command_line_starts_and_ends_witness :
  exists b middle,
    resolve_venv_bin (minion true (Some "1.9") (exited 0 "ok")) python_options
    = Some b /\
    exited 0 "ok"
    = run_all (minion true (Some "1.9") (exited 0 "ok"))
        (b ^^ middle ^^ " " ^^ path python_options) (runas python_options) /\
    exists before,
      trace (create (minion true (Some "1.9") (exited 0 "ok")) python_options)
      = before ++ [RunAll (b ^^ middle ^^ " " ^^ path python_options)
                     (runas python_options)].
Proof.
  apply (command_line_starts_and_ends
           (minion true (Some "1.9") (exited 0 "ok")) python_options
           (exited 0 "ok")).
  reflexivity.
Defined.
